(** * text_to_Image_converter: the caption overlay and the save pipeline of [app.py]

    A shallow embedding of [add_text_overlay] and [generate_and_save_image].
    The Python objects the two functions touch (PIL images, the print stream,
    the saved files, the inline display) are the fields of a [world]; the
    functions are programs of a state-and-exception monad over it.  What the
    third-party libraries do (PIL's rasteriser and font loader, the diffusion
    pipeline, the file system) is a parameter, an [environment]. *)

From Stdlib Require Import ZArith QArith Lqa Lia String Ascii List.
From stdpp Require Import gmap strings.

Local Open Scope Z_scope.

(** ** Python string operations used by the source *)

Module PyStr.

(** [s.endswith(suffix)]: [suffix] is [s] or a suffix of the tail of [s]. *)
Fixpoint endswith (s suffix : string) : bool :=
  if String.eqb s suffix then true
  else match s with
       | EmptyString => false
       | String _ s' => endswith s' suffix
       end.

(** [s.startswith(p)]. *)
Definition startswith (s p : string) : bool := String.prefix p s.

(** [bool(s)] for a [str]: only the empty string is falsy. *)
Definition truthy (s : string) : bool :=
  match s with
  | EmptyString => false
  | String _ _ => true
  end.

(** [posixpath.join(a, b)] with one component: an absolute [b] replaces
    [a]; otherwise [b] is attached with exactly one separator. *)
Definition os_path_join (a b : string) : string :=
  if startswith b "/" then b
  else if (negb (truthy a) || endswith a "/")%bool then a +:+ b
  else a +:+ "/" +:+ b.

End PyStr.

Import PyStr.

(** ** Exceptions and outcomes *)

(** The instances of Python's [Exception] that the code tells apart:
    [IOError] (an alias of [OSError], the only class the font handlers
    catch) and every other class, kept by name.  [KeyboardInterrupt] and
    [SystemExit] are not instances of [Exception] and are not modelled. *)
Inductive exn : Type :=
| IOError (msg : string)
| OtherException (class msg : string).

Definition is_IOError (e : exn) : bool :=
  match e with
  | IOError _ => true
  | OtherException _ _ => false
  end.

(** [except Exception] matches every modelled exception. *)
Definition is_Exception (_ : exn) : bool := true.

(** [str(e)], as interpolated by [f"...{e}"]. *)
Definition exn_str (e : exn) : string :=
  match e with
  | IOError m => m
  | OtherException _ m => m
  end.

Inductive outcome (A : Type) : Type :=
| Returned (a : A)
| Raised (e : exn).
Arguments Returned {A} a.
Arguments Raised {A} e.

(** ** PIL objects *)

(** Object identity of a PIL image. *)
Definition loc := nat.

Inductive font : Type :=
| DefaultFont
| TrueTypeFont (path : string) (size : Z).

(** A fill is a colour name or an RGBA tuple. *)
Inductive ink : Type :=
| Named (name : string)
| Tuple (r g b a : Z).

(** Coordinates as the source passes them: the abscissa is the float
    [(image_width - text_width) / 2] and its offsets, the ordinate is an
    int.  Every abscissa is a half-integer far below [2^53], where binary64
    arithmetic is exact, so the float is the rational it denotes. *)
Definition point : Type := Q * Z.
Definition box : Type := point * point.

Record image (raster : Type) : Type := Image {
  im_mode : string;
  im_size : Z * Z;
  im_pixels : raster
}.
Arguments Image {raster} _ _ _.
Arguments im_mode {raster} _.
Arguments im_size {raster} _.
Arguments im_pixels {raster} _.

(** A call on an [ImageDraw] object, with the image it draws into. *)
Inductive draw_call : Type :=
| Rectangle (target : loc) (xy : box) (fill : ink)
| Text (target : loc) (xy : point) (text : string) (f : font) (fill : ink).

(** ** The world and the environment *)

Record world (raster : Type) : Type := World {
  heap : gmap loc (image raster);       (* the live image objects *)
  default_calls : nat;                  (* calls of ImageFont.load_default so far *)
  prompts : list string;                (* prompts handed to the pipeline *)
  stdout : list string;                 (* lines printed, oldest first *)
  drawn : list draw_call;               (* ImageDraw calls, oldest first *)
  saved : list (string * image raster); (* files written, oldest first *)
  shown : list string                   (* paths displayed inline *)
}.
Arguments World {raster} _ _ _ _ _ _ _.
Arguments heap {raster} _.
Arguments default_calls {raster} _.
Arguments prompts {raster} _.
Arguments stdout {raster} _.
Arguments drawn {raster} _.
Arguments saved {raster} _.
Arguments shown {raster} _.

(** What the libraries do.  [None] in an [option exn] means the call
    succeeds.  [convert_outcome from to] tells whether PIL converts mode
    [from] to mode [to] or raises ([ValueError], when it has no conversion
    between the two); [textbbox] measures a text or raises;
    [load_default_outcome n] is the fate of the call of
    [ImageFont.load_default] made after [n] earlier ones.  [pipe_global] is
    the module's global [pipe]: [None] when the model could not be loaded,
    else the pipeline, whose run made after [n] earlier ones yields
    [.images[0]] or raises. *)
Record environment (raster : Type) : Type := Environment {
  convert_outcome : string -> string -> option exn;
  convert_pixels : string -> string -> raster -> raster;
  paint_rectangle : raster -> box -> ink -> raster;
  paint_text : raster -> point -> string -> font -> ink -> raster;
  textbbox : Z * Z -> string -> font -> outcome (Z * Z * Z * Z);
  load_default_outcome : nat -> option exn;
  truetype_outcome : string -> Z -> option exn;
  pipe_global : option (nat -> string -> outcome (image raster));
  save_outcome : string -> option exn;
  display_outcome : string -> option exn
}.
Arguments Environment {raster} _ _ _ _ _ _ _ _ _ _.
Arguments convert_outcome {raster} _ _ _.
Arguments convert_pixels {raster} _ _ _ _.
Arguments paint_rectangle {raster} _ _ _ _.
Arguments paint_text {raster} _ _ _ _ _ _.
Arguments textbbox {raster} _ _ _ _.
Arguments load_default_outcome {raster} _ _.
Arguments truetype_outcome {raster} _ _ _.
Arguments pipe_global {raster} _.
Arguments save_outcome {raster} _ _.
Arguments display_outcome {raster} _ _.

(** Calling [None] raises [TypeError]. *)
Definition none_not_callable : exn :=
  OtherException "TypeError" "'NoneType' object is not callable".

(** What [pipe(description).images[0]] comes to, for the global [pipe],
    after [n] earlier prompts. *)
Definition pipe_outcome {raster : Type} (E : environment raster)
    (n : nat) (description : string) : outcome (image raster) :=
  match pipe_global E with
  | Some run => run n description
  | None => Raised none_not_callable
  end.

(** ** The monad of Python statements *)

Definition M (raster A : Type) : Type := world raster -> outcome A * world raster.

Definition ret {raster A} (a : A) : M raster A := fun w => (Returned a, w).

Definition bind {raster A B} (c : M raster A) (k : A -> M raster B) : M raster B :=
  fun w =>
    match c w with
    | (Returned a, w') => k a w'
    | (Raised e, w') => (Raised e, w')
    end.

Definition raise {raster A} (e : exn) : M raster A := fun w => (Raised e, w).

(** [try: body  except <classes> as e: handler e]. *)
Definition try_except {raster A} (body : M raster A) (classes : exn -> bool)
    (handler : exn -> M raster A) : M raster A :=
  fun w =>
    match body w with
    | (Returned a, w') => (Returned a, w')
    | (Raised e, w') => if classes e then handler e w' else (Raised e, w')
    end.

Declare Scope py_scope.
Delimit Scope py_scope with py.
Notation "x <- c ;; k" := (bind c (fun x => k))
  (at level 100, c at next level, right associativity) : py_scope.
Notation "c ;;; k" := (bind c (fun _ => k))
  (at level 100, right associativity) : py_scope.
Local Open Scope py_scope.

(** ** Library calls as monadic primitives *)

Section Primitives.
Context {raster : Type}.
Variable E : environment raster.

Definition with_heap (h : gmap loc (image raster)) (w : world raster) : world raster :=
  World h (default_calls w) (prompts w) (stdout w) (drawn w) (saved w) (shown w).

(** Reading through a name that is bound to no object cannot happen in
    Python; the model raises so that every primitive is total. *)
Definition dangling : exn := OtherException "ReferenceError" "no such image object".

Definition deref (l : loc) : M raster (image raster) :=
  fun w =>
    match heap w !! l with
    | Some im => (Returned im, w)
    | None => (Raised dangling, w)
    end.

(** A newly created object gets an identity no live object has. *)
Definition allocate (im : image raster) : M raster loc :=
  fun w =>
    let l := fresh (dom (heap w)) in
    (Returned l, with_heap (<[l := im]> (heap w)) w).

(** [print(line)]. *)
Definition print (line : string) : M raster unit :=
  fun w =>
    (Returned tt,
     World (heap w) (default_calls w) (prompts w) (stdout w ++ [line])
           (drawn w) (saved w) (shown w)).

(** [image.convert(mode)]: PIL raises when it has no conversion from the
    mode of the image to [mode]; otherwise it returns a converted copy, a
    new object, also when the image already has that mode. *)
Definition Image_convert (l : loc) (mode : string) : M raster loc :=
  im <- deref l ;;
  match convert_outcome E (im_mode im) mode with
  | Some e => raise e
  | None =>
      allocate (Image mode (im_size im) (convert_pixels E (im_mode im) mode (im_pixels im)))
  end.

(** [image.size]. *)
Definition Image_size (l : loc) : M raster (Z * Z) :=
  im <- deref l ;; ret (im_size im).

(** [ImageDraw.Draw(image)]: the drawing context writes into [image]
    itself, so it is the image's identity. *)
Definition ImageDraw_Draw (l : loc) : M raster loc := ret l.

(** [draw.textbbox(xy, text, font=font)]: the box, or the exception of
    the measurement. *)
Definition draw_textbbox (draw : loc) (xy : Z * Z) (text : string) (f : font)
  : M raster (Z * Z * Z * Z) :=
  fun w => (textbbox E xy text f, w).

Definition paint (draw : loc) (call : draw_call) (f : raster -> raster) : M raster unit :=
  fun w =>
    match heap w !! draw with
    | Some im =>
        (Returned tt,
         World (<[draw := Image (im_mode im) (im_size im) (f (im_pixels im))]> (heap w))
               (default_calls w) (prompts w) (stdout w) (drawn w ++ [call])
               (saved w) (shown w))
    | None => (Raised dangling, w)
    end.

(** [draw.rectangle([p, q], fill=fill)]. *)
Definition draw_rectangle (draw : loc) (xy : box) (fill : ink) : M raster unit :=
  paint draw (Rectangle draw xy fill) (fun px => paint_rectangle E px xy fill).

(** [draw.text(xy, text, font=font, fill=fill)]. *)
Definition draw_text (draw : loc) (xy : point) (text : string) (f : font) (fill : ink)
  : M raster unit :=
  paint draw (Text draw xy text f fill) (fun px => paint_text E px xy text f fill).

(** [ImageFont.load_default()]. *)
Definition ImageFont_load_default : M raster font :=
  fun w =>
    let w' := World (heap w) (S (default_calls w)) (prompts w) (stdout w)
                    (drawn w) (saved w) (shown w) in
    match load_default_outcome E (default_calls w) with
    | None => (Returned DefaultFont, w')
    | Some e => (Raised e, w')
    end.

(** [ImageFont.truetype(path, size)]. *)
Definition ImageFont_truetype (path : string) (size : Z) : M raster font :=
  match truetype_outcome E path size with
  | None => ret (TrueTypeFont path size)
  | Some e => raise e
  end.

(** [pipe(description).images[0]].  When the global [pipe] is [None] the
    call raises at once and no pipeline receives the prompt; otherwise the
    pipeline receives it, and the run yields an image or raises. *)
Definition pipe (description : string) : M raster loc :=
  fun w =>
    match pipe_global E with
    | None => (Raised none_not_callable, w)
    | Some run =>
        let w' := World (heap w) (default_calls w) (prompts w ++ [description]) (stdout w)
                        (drawn w) (saved w) (shown w) in
        match run (length (prompts w)) description with
        | Returned im => allocate im w'
        | Raised e => (Raised e, w')
        end
    end.

(** [image.save(path)]: the file holds the image as it is at the call. *)
Definition Image_save (l : loc) (path : string) : M raster unit :=
  im <- deref l ;;
  match save_outcome E path with
  | None =>
      fun w =>
        (Returned tt,
         World (heap w) (default_calls w) (prompts w) (stdout w) (drawn w)
               (saved w ++ [(path, im)]) (shown w))
  | Some e => raise e
  end.

(** [display(Image(path))]. *)
Definition display (path : string) : M raster unit :=
  match display_outcome E path with
  | None =>
      fun w =>
        (Returned tt,
         World (heap w) (default_calls w) (prompts w) (stdout w) (drawn w)
               (saved w) (shown w ++ [path]))
  | Some e => raise e
  end.

End Primitives.

(** ** The functions of [app.py] *)

Section App.
Context {raster : Type}.
Variable E : environment raster.

(** Lines 60-69 of [add_text_overlay]: the nested [try]/[except IOError]
    that binds [font]. *)
Definition resolve_font : M raster font :=
  try_except
    (ImageFont_load_default E)
    is_IOError
    (fun _ =>
       try_except
         (ImageFont_truetype E "/usr/share/fonts/truetype/dejavu/DejaVuSans-Bold.ttf" 30)
         is_IOError
         (fun _ =>
            print "Error: Unable to load font, using basic font." ;;;
            ImageFont_load_default E)).

Definition add_text_overlay (image : loc) (text : string) : M raster loc :=
  pil_image <- Image_convert E image "RGBA" ;;
  draw <- ImageDraw_Draw pil_image ;;
  font <- resolve_font ;;
  bbox <- draw_textbbox E draw (0, 0) text font ;;
  let '(bbox0, bbox1, bbox2, bbox3) := bbox in
  let text_width := bbox2 - bbox0 in
  let text_height := bbox3 - bbox1 in
  size <- Image_size pil_image ;;
  let '(image_width, image_height) := size in
  let x := (inject_Z (image_width - text_width) / 2)%Q in
  let y := image_height - text_height - 10 in
  let background := Tuple 0 0 0 128 in
  draw_rectangle E draw
    (((x - 10)%Q, y - 10), ((x + inject_Z text_width + 10)%Q, y + text_height + 10))
    background ;;;
  draw_text E draw (x, y) text font (Named "white") ;;;
  ret pil_image.

Definition generate_and_save_image (description file_name : string) : M raster unit :=
  if negb (truthy description) then
    print "Description is required!" ;;;
    ret tt
  else
    let file_name :=
      if negb (endswith file_name ".png") then file_name +:+ ".png" else file_name in
    try_except
      (print "Generating image, please wait..." ;;;
       image <- pipe E description ;;
       image_with_text <- add_text_overlay image description ;;
       let drive_path := os_path_join "/content/drive/My Drive" file_name in
       Image_save E image_with_text drive_path ;;;
       print ("Image saved to Google Drive as " +:+ drive_path) ;;;
       display E drive_path ;;;
       print ("Description: " +:+ description) ;;;
       ret tt)
      is_Exception
      (fun e => print ("Error during image generation: " +:+ exn_str e)).

End App.

(** ** A concrete environment, for running the model *)

Module Sample.

(** A raster that remembers what was done to it. *)
Inductive stroke : Type :=
| Converted (from to : string)
| Filled (xy : box) (fill : ink)
| Lettered (xy : point) (text : string) (f : font) (fill : ink).

Definition raster : Type := list stroke.

(** A fixed-pitch face: every character is 6 pixels wide and 11 high. *)
Definition fixed_pitch (xy : Z * Z) (text : string) (_ : font) : Z * Z * Z * Z :=
  (fst xy, snd xy, fst xy + 6 * Z.of_nat (String.length text), snd xy + 11).

Definition generated : image raster := Image "RGB" (512, 512) [].

(** PIL has no conversion from the mode [La] (luminance with
    premultiplied alpha) to [RGBA]. *)
Definition pil_conversions (from to : string) : option exn :=
  if String.eqb from "La" then
    Some (OtherException "ValueError" "conversion from La to RGBA not supported")
  else None.

(** Every library call succeeds, on the modes PIL converts. *)
Definition healthy : environment raster :=
  Environment
    pil_conversions
    (fun from to px => px ++ [Converted from to])
    (fun px xy fill => px ++ [Filled xy fill])
    (fun px xy text f fill => px ++ [Lettered xy text f fill])
    (fun xy text f => Returned (fixed_pitch xy text f))
    (fun _ => None)
    (fun _ _ => None)
    (Some (fun _ _ => Returned generated))
    (fun _ => None)
    (fun _ => None).

(** No font can be loaded: every loader raises [IOError]. *)
Definition fontless : environment raster :=
  Environment
    pil_conversions
    (convert_pixels healthy) (paint_rectangle healthy) (paint_text healthy)
    (textbbox healthy)
    (fun _ => Some (IOError "cannot open resource"))
    (fun _ _ => Some (IOError "cannot open resource"))
    (pipe_global healthy) (save_outcome healthy) (display_outcome healthy).

(** The font loads but cannot measure the caption. *)
Definition unmeasurable : environment raster :=
  Environment
    pil_conversions
    (convert_pixels healthy) (paint_rectangle healthy) (paint_text healthy)
    (fun _ _ _ => Raised (OtherException "ValueError" "text too long"))
    (fun _ => None)
    (fun _ _ => None)
    (pipe_global healthy) (save_outcome healthy) (display_outcome healthy).



(** A 512 by 512 image of mode [La], and a world holding it at identity 0. *)
Definition premultiplied : image raster := Image "La" (512, 512) [].

Definition darkroom : world raster :=
  World {[ 0%nat := premultiplied ]} 0 [] [] [] [] [].

(** A world holding one 512 by 512 RGB image, at identity 0. *)
Definition studio : world raster :=
  World {[ 0%nat := generated ]} 0 [] [] [] [] [].

Definition empty_world : world raster := World ∅ 0 [] [] [] [] [].

End Sample.

(** ** Names for the states and values the statements speak of *)

Section Landmarks.
Context {raster : Type}.
Variable E : environment raster.

(** The path of the second font tier. *)
Definition dejavu : string := "/usr/share/fonts/truetype/dejavu/DejaVuSans-Bold.ttf".

(** The world after [k] more calls of [load_default] and the lines
    [out] printed. *)
Definition after_fonts (k : nat) (out : list string) (w : world raster) : world raster :=
  World (heap w) (k + default_calls w) (prompts w) (stdout w ++ out)
        (drawn w) (saved w) (shown w).

(** The copy [image.convert("RGBA")] creates. *)
Definition converted (im : image raster) : image raster :=
  Image "RGBA" (im_size im) (convert_pixels E (im_mode im) "RGBA" (im_pixels im)).

(** The identity an object created in world [w] receives. *)
Definition new_loc (w : world raster) : loc := fresh (dom (heap w)).

(** The root the files are saved under. *)
Definition drive_root : string := "/content/drive/My Drive".

(** Lines 96-97: the file name after the extension check. *)
Definition with_png (file_name : string) : string :=
  if negb (endswith file_name ".png") then file_name +:+ ".png" else file_name.

(** The world once the pipeline has answered the prompt with [im]. *)
Definition generated_in (w : world raster) (description : string) (im : image raster)
  : world raster :=
  World (<[new_loc w := im]> (heap w)) (default_calls w)
        (prompts w ++ [description])
        (stdout w ++ ["Generating image, please wait..."])
        (drawn w) (saved w) (shown w).

(** The prompts one call of the global [pipe] hands to a pipeline: none
    when [pipe] is [None]. *)
Definition asked (description : string) : list string :=
  match pipe_global E with
  | Some _ => [description]
  | None => []
  end.


(** The image an [ImageDraw] call writes into. *)
Definition call_target (c : draw_call) : loc :=
  match c with
  | Rectangle target _ _ => target
  | Text target _ _ _ _ => target
  end.

(** [e] is raised by the generation, the overlay or the save of a run of
    [generate_and_save_image] started in [w]. *)
Inductive raised_before_file (w : world raster) (description file_name : string) (e : exn)
  : Prop :=
| generation_raises :
    pipe_outcome E (length (prompts w)) description = Raised e ->
    raised_before_file w description file_name e
| convert_raises_in_run (im : image raster) :
    pipe_outcome E (length (prompts w)) description = Returned im ->
    convert_outcome E (im_mode im) "RGBA" = Some e ->
    raised_before_file w description file_name e
| overlay_raises_in_run (im : image raster) :
    pipe_outcome E (length (prompts w)) description = Returned im ->
    convert_outcome E (im_mode im) "RGBA" = None ->
    fst (resolve_font E w) = Raised e ->
    raised_before_file w description file_name e
| measure_raises_in_run (im : image raster) (f : font) :
    pipe_outcome E (length (prompts w)) description = Returned im ->
    convert_outcome E (im_mode im) "RGBA" = None ->
    fst (resolve_font E w) = Returned f ->
    textbbox E (0, 0) description f = Raised e ->
    raised_before_file w description file_name e
| save_raises (im : image raster) (f : font) (bbox : Z * Z * Z * Z) :
    pipe_outcome E (length (prompts w)) description = Returned im ->
    convert_outcome E (im_mode im) "RGBA" = None ->
    fst (resolve_font E w) = Returned f ->
    textbbox E (0, 0) description f = Returned bbox ->
    save_outcome E (os_path_join drive_root (with_png file_name)) = Some e ->
    raised_before_file w description file_name e.

End Landmarks.

(** ** The notebook around the two functions *)

(** The notebook session: the world of the two functions, the mount
    points of the drive and the HTML documents rendered. *)
Record notebook (raster : Type) : Type := Notebook {
  kernel : world raster;
  mounted : gset string;
  rendered : list string
}.
Arguments Notebook {raster} _ _ _.
Arguments kernel {raster} _.
Arguments mounted {raster} _.
Arguments rendered {raster} _.

(** What the set-up libraries do.  Each call answers with the lines it
    writes to the output streams and with its result.  [environ] is
    [os.environ]. *)
Record services (pipeline : Type) : Type := Services {
  environ : gmap string string;
  from_pretrained_result : string -> string -> list string * outcome pipeline;
  to_result : pipeline -> string -> list string * outcome pipeline;
  mount_result : string -> bool -> list string * option exn
}.
Arguments Services {pipeline} _ _ _ _.
Arguments environ {pipeline} _.
Arguments from_pretrained_result {pipeline} _ _ _.
Arguments to_result {pipeline} _ _ _.
Arguments mount_result {pipeline} _ _ _.

Definition N (raster A : Type) : Type := notebook raster -> outcome A * notebook raster.

Definition retN {raster A} (a : A) : N raster A := fun nb => (Returned a, nb).

Definition bindN {raster A B} (c : N raster A) (k : A -> N raster B) : N raster B :=
  fun nb =>
    match c nb with
    | (Returned a, nb') => k a nb'
    | (Raised e, nb') => (Raised e, nb')
    end.

Definition try_exceptN {raster A} (body : N raster A) (classes : exn -> bool)
    (handler : exn -> N raster A) : N raster A :=
  fun nb =>
    match body nb with
    | (Returned a, nb') => (Returned a, nb')
    | (Raised e, nb') => if classes e then handler e nb' else (Raised e, nb')
    end.

(** A statement of the two functions' monad, run in the session. *)
Definition in_kernel {raster A} (c : M raster A) : N raster A :=
  fun nb =>
    let '(o, w') := c (kernel nb) in
    (o, Notebook w' (mounted nb) (rendered nb)).

Declare Scope nb_scope.
Delimit Scope nb_scope with nb.
Notation "x <- c ;; k" := (bindN c (fun x => k))
  (at level 100, c at next level, right associativity) : nb_scope.
Notation "c ;;; k" := (bindN c (fun _ => k))
  (at level 100, right associativity) : nb_scope.

Section Setup.
Context {raster pipeline : Type}.
Variable L : services pipeline.

(** The lines a library call writes go to the current [sys.stdout]. *)
Definition chatter (lines : list string) : N raster unit :=
  fun nb =>
    let w := kernel nb in
    (Returned tt,
     Notebook (World (heap w) (default_calls w) (prompts w) (stdout w ++ lines)
                     (drawn w) (saved w) (shown w))
              (mounted nb) (rendered nb)).

Definition outcome_of (r : option exn) : N raster unit :=
  fun nb =>
    match r with
    | None => (Returned tt, nb)
    | Some e => (Raised e, nb)
    end.

(** [os.getenv(name)]. *)
Definition os_getenv (name : string) : option string := environ L !! name.

(** [bool(token)] for the result of [os.getenv]: [None] and the empty
    string are falsy. *)
Definition truthy_opt (token : option string) : bool :=
  match token with
  | None => false
  | Some s => truthy s
  end.

(** [StableDiffusionPipeline.from_pretrained(model_id, torch_dtype=dtype)]. *)
Definition from_pretrained (model_id dtype : string) : N raster pipeline :=
  (chatter (fst (from_pretrained_result L model_id dtype)) ;;;
   fun nb => (snd (from_pretrained_result L model_id dtype), nb))%nb.

(** [pipe.to(device)]. *)
Definition pipe_to (pipe : pipeline) (device : string) : N raster pipeline :=
  (chatter (fst (to_result L pipe device)) ;;;
   fun nb => (snd (to_result L pipe device), nb))%nb.

(** [drive.mount(mountpoint, force_remount=force)]. *)
Definition drive_mount (mountpoint : string) (force : bool) : N raster unit :=
  (chatter (fst (mount_result L mountpoint force)) ;;;
   outcome_of (snd (mount_result L mountpoint force)) ;;;
   fun nb => (Returned tt, Notebook (kernel nb) ({[mountpoint]} ∪ mounted nb) (rendered nb)))%nb.

(** [display(HTML(html))]. *)
Definition display_HTML (html : string) : N raster unit :=
  fun nb => (Returned tt, Notebook (kernel nb) (mounted nb) (rendered nb ++ [html])).

(** Lines 12-17.  While [func] runs, [sys.stdout] (and [sys.stderr]) are
    the null device: what [func] writes is lost, and the stream is put back
    when the [with] block is left, by [return] or by an exception.  Opening
    the null device is taken to succeed. *)
Definition suppress_output {A} (func : N raster A) : N raster A :=
  fun nb =>
    let '(o, nb') := func nb in
    let w' := kernel nb' in
    (o, Notebook (World (heap w') (default_calls w') (prompts w') (stdout (kernel nb))
                        (drawn w') (saved w') (shown w'))
                 (mounted nb') (rendered nb')).

(** Lines 20-22. *)
Definition mount_drive : N raster unit :=
  suppress_output (drive_mount "/content/drive" true).

(** Lines 25-31. *)
Definition login_silently : N raster unit :=
  let token := os_getenv "HUGGINGFACE_TOKEN" in
  if truthy_opt token then
    retN tt
  else
    in_kernel
      (print "Hugging Face token not found. Please ensure the token is set in the environment.").

(** Lines 37-45.  [None] is Python's [None]. *)
Definition load_model (model_id : string) : N raster (option pipeline) :=
  suppress_output
    (try_exceptN
       (pipe <- from_pretrained model_id "float16" ;;
        pipe <- pipe_to pipe "cuda" ;;
        retN (Some pipe))%nb
       is_Exception
       (fun e =>
          in_kernel (print ("Failed to load the model: " +:+ exn_str e)) ;;;
          retN None)%nb).

(** The statements the module runs when it is loaded (lines 34, 48, 51-52
    and 198), with the markup of the form as a parameter; the value is the
    global [pipe]. *)
Definition startup (html_code : string) : N raster (option pipeline) :=
  (login_silently ;;;
   mount_drive ;;;
   let model_id := "runwayml/stable-diffusion-v1-5" in
   pipe <- load_model model_id ;;
   display_HTML html_code ;;;
   retN pipe)%nb.

(** The environment of the two functions once the global [pipe] is bound
    to what [load_model] returned; [run] is what a loaded pipeline does. *)
Definition with_pipe (E : environment raster) (pipe : option pipeline)
    (run : pipeline -> nat -> string -> outcome (image raster)) : environment raster :=
  Environment (convert_outcome E) (convert_pixels E) (paint_rectangle E) (paint_text E)
              (textbbox E) (load_default_outcome E) (truetype_outcome E)
              (run <$> pipe) (save_outcome E) (display_outcome E).

End Setup.

(** ** Concrete services, for running the set-up *)

Module SampleSetup.

(** A pipeline is known by the name of its model and its device. *)
Definition pipeline : Type := string.

Definition move (p : pipeline) (device : string) : list string * outcome pipeline :=
  ([], Returned (p +:+ "@" +:+ device)).

(** The token is set, the hub answers and the drive mounts. *)
Definition online : services pipeline :=
  Services {[ "HUGGINGFACE_TOKEN" := "hf_secret" ]}
           (fun model_id _ => (["Loading pipeline components..."], Returned model_id))
           move
           (fun _ _ => (["Mounted at /content/drive"], None)).

(** No token, and the hub cannot be reached. *)
Definition offline : services pipeline :=
  Services ∅
           (fun _ _ => (["Retrying..."], Raised (IOError "cannot connect to the hub")))
           move
           (fun _ _ => (["Mounted at /content/drive"], None)).

(** The drive cannot be mounted. *)
Definition driveless : services pipeline :=
  Services (environ online) (from_pretrained_result online) move
           (fun _ _ => (["Go to this URL in a browser"],
                         Some (OtherException "ValueError" "mount failed"))).

Definition fresh_notebook : notebook Sample.raster :=
  Notebook Sample.empty_world ∅ [].

(** A loaded pipeline answers every prompt with the sample image. *)
Definition run (_ : pipeline) (_ : nat) (_ : string) : outcome (image Sample.raster) :=
  Returned Sample.generated.

End SampleSetup.

(** ** The form *)

(** What the script of the form asks the browser to do. *)
Inductive browser_action : Type :=
| Alert (message : string)
| InvokeFunction (name : string) (args : list string).

(** [generateImage()] of the form (lines 179-191), on the values of the two
    fields; [!s] holds of a string exactly when it is empty. *)
Definition generateImage (description filename : string) : browser_action :=
  if (negb (truthy description) || negb (truthy filename))%bool then
    Alert "Please fill in both fields."
  else
    InvokeFunction "notebook.generate_and_save_image" [description; filename].

(** ** Frames *)

(** [c] leaves the part [part] of the world as it found it, whether it
    returns or raises. *)
Definition keeps {raster A T : Type} (part : world raster -> T) (c : M raster A) : Prop :=
  forall w, part (snd (c w)) = part w.

(** [w'] is [w] grown: every object live in [w] is as it was, and every
    log of [w] is the beginning of the log of [w']. *)
Definition grown {raster : Type} (w w' : world raster) : Prop :=
  (forall l im, heap w !! l = Some im -> heap w' !! l = Some im) /\
  (exists more, prompts w' = prompts w ++ more) /\
  (exists more, stdout w' = stdout w ++ more) /\
  (exists more, drawn w' = drawn w ++ more) /\
  (exists more, saved w' = saved w ++ more) /\
  (exists more, shown w' = shown w ++ more).

Definition grows {raster A : Type} (c : M raster A) : Prop :=
  forall w, grown w (snd (c w)).

(** The part of the world the overlay has no business with. *)
Definition outside_overlay {raster : Type} (w : world raster)
  : list string * list (string * image raster) * list string :=
  (prompts w, saved w, shown w).

(** ** Facts about the string operations *)

Section StringFacts.

Lemma endswith_refl (s : string) : endswith s s = true.
Proof. destruct s; cbn [endswith]; rewrite String.eqb_refl; reflexivity. Qed.

Lemma endswith_app (a b suffix : string) :
  endswith b suffix = true -> endswith (a +:+ b) suffix = true.
Proof.
  intros Hb. induction a as [|c a IH]; [exact Hb|].
  change (String c a +:+ b) with (String c (a +:+ b)). cbn [endswith].
  match goal with |- (if ?c then _ else _) = _ => destruct c end;
    [reflexivity | exact IH].
Qed.

(** [endswith] is the suffix relation. *)
Lemma endswith_spec (s suffix : string) :
  endswith s suffix = true <-> exists p, s = p +:+ suffix.
Proof.
  split.
  - induction s as [|c s IH]; cbn [endswith].
    + destruct (String.eqb "" suffix) eqn:Heq; [|discriminate].
      apply String.eqb_eq in Heq. intros _. exists "". exact Heq.
    + destruct (String.eqb (String c s) suffix) eqn:Heq.
      * apply String.eqb_eq in Heq. intros _. exists "". exact Heq.
      * intros Hs. destruct (IH Hs) as [p Hp]. exists (String c p).
        change (String c p +:+ suffix) with (String c (p +:+ suffix)).
        rewrite Hp. reflexivity.
  - intros [p Hp]. subst s. apply endswith_app, endswith_refl.
Qed.

Lemma with_png_endswith (file_name : string) :
  endswith (with_png file_name) ".png" = true.
Proof.
  unfold with_png. destruct (endswith file_name ".png") eqn:Hext; cbn [negb].
  - exact Hext.
  - apply endswith_app, endswith_refl.
Qed.

Lemma with_png_startswith (file_name : string) :
  startswith (with_png file_name) "/" = startswith file_name "/".
Proof.
  unfold with_png. destruct (endswith file_name ".png"); cbn [negb]; [reflexivity|].
  destruct file_name as [|c rest]; [reflexivity|].
  change (String c rest +:+ ".png") with (String c (rest +:+ ".png")).
  unfold startswith. cbn [String.prefix].
  destruct (ascii_dec "/" c); [|reflexivity]. destruct rest; reflexivity.
Qed.

(** Under the root the join has its two ordinary cases. *)
Lemma join_drive_root (b : string) :
  os_path_join drive_root b =
  if startswith b "/" then b else drive_root +:+ "/" +:+ b.
Proof. unfold os_path_join. destruct (startswith b "/"); reflexivity. Qed.

Lemma join_endswith (a b suffix : string) :
  endswith b suffix = true -> endswith (os_path_join a b) suffix = true.
Proof.
  intros Hb. unfold os_path_join.
  destruct (startswith b "/"); [exact Hb|].
  destruct (negb (truthy a) || endswith a "/")%bool.
  - apply endswith_app, Hb.
  - apply endswith_app, endswith_app, Hb.
Qed.

End StringFacts.

(** ** Font resolution *)

Section FontResolution.
Context {raster : Type}.
Variable E : environment raster.

(** The three tiers, case by case. *)
Lemma resolve_font_unfold (w : world raster) :
  resolve_font E w =
  match load_default_outcome E (default_calls w) with
  | None => (Returned DefaultFont, after_fonts 1 [] w)
  | Some e1 =>
      if is_IOError e1 then
        match truetype_outcome E dejavu 30 with
        | None => (Returned (TrueTypeFont dejavu 30), after_fonts 1 [] w)
        | Some e2 =>
            if is_IOError e2 then
              match load_default_outcome E (S (default_calls w)) with
              | None =>
                  (Returned DefaultFont,
                   after_fonts 2 ["Error: Unable to load font, using basic font."] w)
              | Some e3 =>
                  (Raised e3,
                   after_fonts 2 ["Error: Unable to load font, using basic font."] w)
              end
            else (Raised e2, after_fonts 1 [] w)
        end
      else (Raised e1, after_fonts 1 [] w)
  end.
Proof.
  unfold resolve_font, try_except, ImageFont_load_default, ImageFont_truetype,
    after_fonts, bind, print, ret, raise, dejavu.
  destruct (load_default_outcome E (default_calls w)) as [e1|]; simpl;
    rewrite ?app_nil_r; [|reflexivity].
  destruct (is_IOError e1); [|reflexivity].
  destruct (truetype_outcome E _ 30) as [e2|]; simpl; [|reflexivity].
  destruct (is_IOError e2); [|reflexivity].
  simpl. destruct (load_default_outcome E (S (default_calls w))); reflexivity.
Qed.

(** Font resolution touches the call counter and the print stream only. *)
Lemma resolve_font_frame (w : world raster) :
  exists k out, snd (resolve_font E w) = after_fonts k out w.
Proof.
  rewrite resolve_font_unfold.
  repeat match goal with
         | |- context [match ?x with _ => _ end] => destruct x
         end; simpl; eauto.
Qed.

(** Its outcome depends on the world through the call counter only. *)
Lemma resolve_font_outcome (w1 w2 : world raster) :
  default_calls w1 = default_calls w2 ->
  fst (resolve_font E w1) = fst (resolve_font E w2).
Proof.
  intros Hc. rewrite !resolve_font_unfold, Hc.
  repeat match goal with
         | |- context [match ?x with _ => _ end] => destruct x
         end; reflexivity.
Qed.

End FontResolution.

(** ** Running [add_text_overlay] *)

Section Overlay.
Context {raster : Type}.
Variable E : environment raster.

Lemma new_loc_fresh (w : world raster) : heap w !! new_loc w = None.
Proof. unfold new_loc. apply (not_elem_of_dom (D := gset loc)), is_fresh. Qed.

Lemma new_loc_neq (w : world raster) (l : loc) (im : image raster) :
  heap w !! l = Some im -> new_loc w <> l.
Proof. intros Hl Heq. rewrite <- Heq, new_loc_fresh in Hl. discriminate. Qed.

Lemma overlay_dangling (w : world raster) (img : loc) (text : string) :
  heap w !! img = None ->
  add_text_overlay E img text w = (Raised dangling, w).
Proof.
  intros Hnone. unfold add_text_overlay, Image_convert, deref, bind.
  cbv beta. rewrite Hnone. reflexivity.
Qed.

(** A conversion PIL does not have ends the call at once. *)
Lemma overlay_convert_raises (w : world raster) (img : loc) (text : string)
    (im : image raster) (e : exn) :
  heap w !! img = Some im ->
  convert_outcome E (im_mode im) "RGBA" = Some e ->
  add_text_overlay E img text w = (Raised e, w).
Proof.
  intros Hlive Hconv.
  unfold add_text_overlay, Image_convert, deref, bind, ret.
  cbv beta. rewrite Hlive. cbn beta iota zeta. rewrite Hconv. reflexivity.
Qed.

(** A failed font resolution ends the call after the conversion. *)
Lemma overlay_raises (w : world raster) (img : loc) (text : string)
    (im : image raster) (e : exn) :
  heap w !! img = Some im ->
  convert_outcome E (im_mode im) "RGBA" = None ->
  fst (resolve_font E w) = Raised e ->
  exists k out,
    add_text_overlay E img text w =
    (Raised e,
     World (<[new_loc w := converted E im]> (heap w)) (k + default_calls w) (prompts w)
           (stdout w ++ out) (drawn w) (saved w) (shown w)).
Proof.
  intros Hlive Hconv Hfont.
  unfold add_text_overlay, Image_convert, deref, allocate, ImageDraw_Draw, bind, ret.
  cbv beta. rewrite Hlive. cbn beta iota zeta. rewrite Hconv.
  fold (new_loc w). fold (converted E im).
  set (w0 := with_heap _ w).
  destruct (resolve_font_frame E w0) as (k & out & Hsnd).
  assert (Hfst : fst (resolve_font E w0) = Raised e).
  { rewrite <- Hfont. apply resolve_font_outcome. reflexivity. }
  destruct (resolve_font E w0) as [o w1]. simpl in Hsnd, Hfst. subst o w1.
  exists k, out. reflexivity.
Qed.

(** A failed measurement ends the call with the font resolved and the
    copy made. *)
Lemma overlay_measure_raises (w : world raster) (img : loc) (text : string)
    (im : image raster) (f : font) (e : exn) :
  heap w !! img = Some im ->
  convert_outcome E (im_mode im) "RGBA" = None ->
  fst (resolve_font E w) = Returned f ->
  textbbox E (0, 0) text f = Raised e ->
  exists k out,
    add_text_overlay E img text w =
    (Raised e,
     World (<[new_loc w := converted E im]> (heap w)) (k + default_calls w) (prompts w)
           (stdout w ++ out) (drawn w) (saved w) (shown w)).
Proof.
  intros Hlive Hconv Hfont Hbbox.
  unfold add_text_overlay, Image_convert, deref, allocate, ImageDraw_Draw, bind, ret.
  cbv beta. rewrite Hlive. cbn beta iota zeta. rewrite Hconv.
  fold (new_loc w). fold (converted E im).
  set (w0 := with_heap _ w).
  destruct (resolve_font_frame E w0) as (k & out & Hsnd).
  assert (Hfst : fst (resolve_font E w0) = Returned f).
  { rewrite <- Hfont. apply resolve_font_outcome. reflexivity. }
  destruct (resolve_font E w0) as [o w1]. simpl in Hsnd, Hfst. subst o w1.
  exists k, out.
  unfold draw_textbbox. rewrite Hbbox. reflexivity.
Qed.

(** With the copy made, a font in hand and the caption measured, the call
    runs to its [return]. *)
Lemma overlay_returns (w : world raster) (img : loc) (text : string)
    (im : image raster) (f : font) (iw ih bbox0 bbox1 bbox2 bbox3 : Z) :
  heap w !! img = Some im ->
  convert_outcome E (im_mode im) "RGBA" = None ->
  im_size im = (iw, ih) ->
  fst (resolve_font E w) = Returned f ->
  textbbox E (0, 0) text f = Returned (bbox0, bbox1, bbox2, bbox3) ->
  let text_width := bbox2 - bbox0 in
  let text_height := bbox3 - bbox1 in
  let x := (inject_Z (iw - text_width) / 2)%Q in
  let y := ih - text_height - 10 in
  let plate : box :=
    (((x - 10)%Q, y - 10), ((x + inject_Z text_width + 10)%Q, y + text_height + 10)) in
  exists k out,
    add_text_overlay E img text w =
    (Returned (new_loc w),
     World (<[new_loc w :=
                Image "RGBA" (iw, ih)
                  (paint_text E
                     (paint_rectangle E
                        (convert_pixels E (im_mode im) "RGBA" (im_pixels im))
                        plate (Tuple 0 0 0 128))
                     (x, y) text f (Named "white"))]> (heap w))
           (k + default_calls w) (prompts w) (stdout w ++ out)
           (drawn w ++ [Rectangle (new_loc w) plate (Tuple 0 0 0 128);
                        Text (new_loc w) (x, y) text f (Named "white")])
           (saved w) (shown w)).
Proof.
  intros Hlive Hconv Hsize Hfont Hbbox text_width text_height x y plate.
  unfold add_text_overlay, Image_convert, deref, allocate, ImageDraw_Draw, bind, ret.
  cbv beta. rewrite Hlive. cbn beta iota zeta. rewrite Hconv.
  fold (new_loc w).
  set (w0 := with_heap _ w).
  destruct (resolve_font_frame E w0) as (k & out & Hsnd).
  assert (Hfst : fst (resolve_font E w0) = Returned f).
  { rewrite <- Hfont. apply resolve_font_outcome. reflexivity. }
  destruct (resolve_font E w0) as [o w1]. simpl in Hsnd, Hfst. subst o w1.
  exists k, out.
  unfold draw_textbbox. rewrite Hbbox.
  unfold Image_size, bind, deref, ret, after_fonts, w0, with_heap. simpl.
  rewrite lookup_insert_eq. simpl. rewrite Hsize.
  unfold draw_rectangle, draw_text, paint. simpl.
  rewrite lookup_insert_eq. simpl.
  rewrite lookup_insert_eq. simpl.
  rewrite !insert_insert_eq. rewrite <- app_assoc. reflexivity.
Qed.

(** How a call on a live image ends: the conversion, then the font block,
    then the measurement decide; past them the call returns the copy. *)
Lemma overlay_outcome (w : world raster) (img : loc) (text : string) (im : image raster) :
  heap w !! img = Some im ->
  fst (add_text_overlay E img text w) =
  match convert_outcome E (im_mode im) "RGBA" with
  | Some e => Raised e
  | None =>
      match fst (resolve_font E w) with
      | Raised e => Raised e
      | Returned f =>
          match textbbox E (0, 0) text f with
          | Raised e => Raised e
          | Returned _ => Returned (new_loc w)
          end
      end
  end.
Proof.
  intros Hlive.
  destruct (convert_outcome E (im_mode im) "RGBA") as [e|] eqn:Hconv.
  { rewrite (overlay_convert_raises w img text im e Hlive Hconv). reflexivity. }
  destruct (fst (resolve_font E w)) as [f|e] eqn:Hfont.
  2: { destruct (overlay_raises w img text im e Hlive Hconv Hfont) as (k & out & Hrun).
       rewrite Hrun. reflexivity. }
  destruct (textbbox E (0, 0) text f) as [[[[b0 b1] b2] b3]|e] eqn:Hbbox.
  - destruct (im_size im) as [iw ih] eqn:Hsize.
    destruct (overlay_returns w img text im f iw ih b0 b1 b2 b3
                Hlive Hconv Hsize Hfont Hbbox) as (k & out & Hrun).
    rewrite Hrun. reflexivity.
  - destruct (overlay_measure_raises w img text im f e Hlive Hconv Hfont Hbbox)
      as (k & out & Hrun).
    rewrite Hrun. reflexivity.
Qed.

(** The world a raising call leaves: at most the undrawn copy is new, at
    most the font block has printed, and nothing else has changed. *)
Lemma overlay_raise_world (w : world raster) (img : loc) (text : string)
    (im : image raster) (e : exn) :
  heap w !! img = Some im ->
  fst (add_text_overlay E img text w) = Raised e ->
  exists h k out,
    snd (add_text_overlay E img text w) =
    World h (k + default_calls w) (prompts w) (stdout w ++ out)
          (drawn w) (saved w) (shown w) /\
    (h = heap w \/ h = <[new_loc w := converted E im]> (heap w)).
Proof.
  intros Hlive Hraise. rewrite (overlay_outcome w img text im Hlive) in Hraise.
  destruct (convert_outcome E (im_mode im) "RGBA") as [e0|] eqn:Hconv.
  { rewrite (overlay_convert_raises w img text im e0 Hlive Hconv).
    exists (heap w), 0%nat, []. split; [|left; reflexivity].
    cbn [snd]. rewrite app_nil_r. destruct w; reflexivity. }
  destruct (fst (resolve_font E w)) as [f|e1] eqn:Hfont.
  2: { destruct (overlay_raises w img text im e1 Hlive Hconv Hfont) as (k & out & Hrun).
       rewrite Hrun. eexists _, k, out. split; [reflexivity | right; reflexivity]. }
  destruct (textbbox E (0, 0) text f) as [bbox|e2] eqn:Hbbox; [discriminate|].
  destruct (overlay_measure_raises w img text im f e2 Hlive Hconv Hfont Hbbox)
    as (k & out & Hrun).
  rewrite Hrun. eexists _, k, out. split; [reflexivity | right; reflexivity].
Qed.

End Overlay.

(** ** Running [generate_and_save_image] *)

Section Pipeline.
Context {raster : Type}.
Variable E : environment raster.

Lemma bind_returned {A B} (c : M raster A) (k : A -> M raster B) w a w' :
  c w = (Returned a, w') -> bind c k w = k a w'.
Proof. intros Hc. unfold bind. rewrite Hc. reflexivity. Qed.

Lemma bind_raised {A B} (c : M raster A) (k : A -> M raster B) w e w' :
  c w = (Raised e, w') -> bind c k w = (Raised e, w').
Proof. intros Hc. unfold bind. rewrite Hc. reflexivity. Qed.

Lemma bind_print {B} (line : string) (k : unit -> M raster B) w :
  bind (print line) k w = k tt (snd (print line w)).
Proof. reflexivity. Qed.

Lemma pipe_returns (w : world raster) (description : string) (im : image raster) :
  pipe_outcome E (length (prompts w)) description = Returned im ->
  pipe E description (snd (print "Generating image, please wait..." w)) =
  (Returned (new_loc w), generated_in w description im).
Proof.
  intros Hpipe. unfold pipe_outcome in Hpipe. unfold print, pipe. cbn [snd heap prompts].
  destruct (pipe_global E) as [run|]; [|discriminate].
  rewrite Hpipe. reflexivity.
Qed.

Lemma generated_live (w : world raster) (description : string) (im : image raster) :
  heap (generated_in w description im) !! new_loc w = Some im.
Proof. unfold generated_in. cbn [heap]. apply lookup_insert_eq. Qed.

Lemma generated_font (w : world raster) (description : string) (im : image raster) :
  fst (resolve_font E (generated_in w description im)) = fst (resolve_font E w).
Proof. apply resolve_font_outcome. reflexivity. Qed.

(** How the overlay of a run ends, read in the world the run started in. *)
Lemma overlay_in_run_outcome (w : world raster) (description : string) (im : image raster) :
  fst (add_text_overlay E (new_loc w) description (generated_in w description im)) =
  match convert_outcome E (im_mode im) "RGBA" with
  | Some e => Raised e
  | None =>
      match fst (resolve_font E w) with
      | Raised e => Raised e
      | Returned f =>
          match textbbox E (0, 0) description f with
          | Raised e => Raised e
          | Returned _ => Returned (new_loc (generated_in w description im))
          end
      end
  end.
Proof.
  rewrite (overlay_outcome E _ _ _ im (generated_live _ _ _)), generated_font.
  reflexivity.
Qed.

Lemma empty_description_run (w : world raster) (file_name : string) :
  generate_and_save_image E "" file_name w =
  (Returned tt,
   World (heap w) (default_calls w) (prompts w)
         (stdout w ++ ["Description is required!"])
         (drawn w) (saved w) (shown w)).
Proof. reflexivity. Qed.

Lemma truthy_nonempty (s : string) : s <> "" -> truthy s = true.
Proof. destruct s; [congruence | reflexivity]. Qed.

(** The pipeline raises: the handler prints and nothing else happens. *)
Lemma generation_fails_run (w : world raster) (description file_name : string) (e : exn) :
  description <> "" ->
  pipe_outcome E (length (prompts w)) description = Raised e ->
  generate_and_save_image E description file_name w =
  (Returned tt,
   World (heap w) (default_calls w) (prompts w ++ asked E description)
         (stdout w ++ ["Generating image, please wait...";
                       "Error during image generation: " +:+ exn_str e])
         (drawn w) (saved w) (shown w)).
Proof.
  intros Hd Hpipe. unfold pipe_outcome in Hpipe. unfold generate_and_save_image, asked.
  rewrite (truthy_nonempty _ Hd). cbn [negb].
  unfold try_except, bind at 1, print at 1, bind at 1, pipe.
  cbn [heap prompts].
  destruct (pipe_global E) as [run|].
  - rewrite Hpipe. cbn [is_Exception].
    unfold print. cbn [heap default_calls prompts stdout drawn saved shown].
    rewrite <- app_assoc. reflexivity.
  - injection Hpipe as <-. cbn [is_Exception].
    unfold print. cbn [heap default_calls prompts stdout drawn saved shown].
    rewrite <- app_assoc, app_nil_r. reflexivity.
Qed.

(** The statements of the [try] block up to the call of the overlay. *)
Ltac enter_try file_name Hd Hpipe :=
  unfold generate_and_save_image;
  rewrite (truthy_nonempty _ Hd); cbn [negb];
  fold (with_png file_name); fold drive_root;
  unfold try_except;
  rewrite bind_print;
  rewrite (bind_returned _ _ _ _ _ (pipe_returns _ _ _ Hpipe)).

(** The overlay raises: the handler prints, no file, no display. *)
Lemma overlay_fails_run (w : world raster) (description file_name : string)
    (im : image raster) (e : exn) :
  description <> "" ->
  pipe_outcome E (length (prompts w)) description = Returned im ->
  fst (add_text_overlay E (new_loc w) description (generated_in w description im)) =
    Raised e ->
  exists w' out,
    generate_and_save_image E description file_name w = (Returned tt, w') /\
    stdout w' = stdout w ++ ["Generating image, please wait..."] ++ out ++
                ["Error during image generation: " +:+ exn_str e] /\
    drawn w' = drawn w /\ saved w' = saved w /\ shown w' = shown w.
Proof.
  intros Hd Hpipe Hraise.
  destruct (overlay_raise_world E (generated_in w description im) (new_loc w) description
              im e (generated_live _ _ _) Hraise) as (h & k & out & Hworld & _).
  enter_try file_name Hd Hpipe.
  destruct (add_text_overlay E (new_loc w) description (generated_in w description im))
    as [o w1] eqn:Hrun.
  cbn [fst snd] in Hraise, Hworld. subst o w1.
  rewrite (bind_raised _ _ _ _ _ Hrun). cbn [is_Exception].
  eexists _, out. split; [reflexivity|].
  unfold print, generated_in. cbn [heap default_calls prompts stdout drawn saved shown].
  rewrite <- !app_assoc. auto.
Qed.

(** The overlay returns: the state in which [save] is called. *)
Ltac overlay_done w description im f Hconv Hfont Hbbox k out Hrun :=
  let iw := fresh "iw" in
  let ih := fresh "ih" in
  let Hsize := fresh "Hsize" in
  destruct (im_size im) as [iw ih] eqn:Hsize;
  destruct (overlay_returns E (generated_in w description im) (new_loc w) description
              im f _ _ _ _ _ _ (generated_live _ _ _) Hconv Hsize
              (eq_trans (generated_font _ _ _) Hfont) Hbbox) as (k & out & Hrun).

(** [save] raises: the handler prints, no file, no display. *)
Lemma save_fails_run (w : world raster) (description file_name : string)
    (im : image raster) (f : font) (bbox0 bbox1 bbox2 bbox3 : Z) (e : exn) :
  description <> "" ->
  pipe_outcome E (length (prompts w)) description = Returned im ->
  convert_outcome E (im_mode im) "RGBA" = None ->
  fst (resolve_font E w) = Returned f ->
  textbbox E (0, 0) description f = Returned (bbox0, bbox1, bbox2, bbox3) ->
  save_outcome E (os_path_join drive_root (with_png file_name)) = Some e ->
  exists w' out,
    generate_and_save_image E description file_name w = (Returned tt, w') /\
    stdout w' = stdout w ++ ["Generating image, please wait..."] ++ out ++
                ["Error during image generation: " +:+ exn_str e] /\
    saved w' = saved w /\ shown w' = shown w.
Proof.
  intros Hd Hpipe Hconv Hfont Hbbox Hsave.
  overlay_done w description im f Hconv Hfont Hbbox k out Hrun.
  enter_try file_name Hd Hpipe.
  rewrite (bind_returned _ _ _ _ _ Hrun).
  unfold Image_save, deref, bind at 1, bind at 1. cbn [heap].
  rewrite lookup_insert_eq, Hsave. unfold raise. cbn [is_Exception].
  eexists _, out. split; [reflexivity|].
  unfold print, generated_in. cbn [heap default_calls prompts stdout drawn saved shown].
  rewrite <- !app_assoc. auto.
Qed.

(** [save] succeeds: one file is written, whatever [display] does. *)
Lemma saved_run (w : world raster) (description file_name : string)
    (im : image raster) (f : font) (bbox0 bbox1 bbox2 bbox3 : Z) :
  description <> "" ->
  pipe_outcome E (length (prompts w)) description = Returned im ->
  convert_outcome E (im_mode im) "RGBA" = None ->
  fst (resolve_font E w) = Returned f ->
  textbbox E (0, 0) description f = Returned (bbox0, bbox1, bbox2, bbox3) ->
  let drive_path := os_path_join drive_root (with_png file_name) in
  save_outcome E drive_path = None ->
  exists w' out painted,
    generate_and_save_image E description file_name w = (Returned tt, w') /\
    saved w' = saved w ++ [(drive_path, painted)] /\
    im_mode painted = "RGBA" /\ im_size painted = im_size im /\
    shown w' = shown w ++ match display_outcome E drive_path with
                          | None => [drive_path]
                          | Some _ => []
                          end /\
    stdout w' = stdout w ++ ["Generating image, please wait..."] ++ out ++
                ["Image saved to Google Drive as " +:+ drive_path] ++
                [match display_outcome E drive_path with
                 | None => "Description: " +:+ description
                 | Some e => "Error during image generation: " +:+ exn_str e
                 end].
Proof.
  intros Hd Hpipe Hconv Hfont Hbbox drive_path Hsave.
  overlay_done w description im f Hconv Hfont Hbbox k out Hrun.
  enter_try file_name Hd Hpipe.
  rewrite (bind_returned _ _ _ _ _ Hrun).
  unfold Image_save, deref, bind at 1, bind at 1. cbn [heap].
  fold drive_path. rewrite lookup_insert_eq, Hsave.
  rewrite bind_print. unfold display, bind at 1.
  destruct (display_outcome E drive_path) as [e|].
  - unfold raise. cbn [is_Exception].
    eexists _, out, _. split; [reflexivity|].
    unfold print, generated_in.
    cbn [snd heap default_calls prompts stdout drawn saved shown im_mode im_size].
    rewrite <- !app_assoc, app_nil_r. auto.
  - rewrite bind_print. unfold ret.
    eexists _, out, _. split; [reflexivity|].
    unfold print, generated_in.
    cbn [snd heap default_calls prompts stdout drawn saved shown im_mode im_size].
    rewrite <- !app_assoc. auto.
Qed.

End Pipeline.

(** * Properties of the two functions *)

(** ** The overlay: result image *)

(** C1, as claimed, fails.  PIL has no conversion from mode [La] to
    RGBA: on a 512 by 512 image of that mode, with a non-empty caption,
    [image.convert("RGBA")] raises [ValueError] and [add_text_overlay]
    returns no image at all; the world is left as it was. *)
Lemma unconvertible_mode_raises :
  heap Sample.darkroom !! 0%nat = Some Sample.premultiplied /\
  "a red bicycle" <> "" /\
  add_text_overlay Sample.healthy 0%nat "a red bicycle" Sample.darkroom =
  (Raised (OtherException "ValueError" "conversion from La to RGBA not supported"),
   Sample.darkroom).
Proof.
  split; [reflexivity|]. split; [discriminate|].
  apply (overlay_convert_raises Sample.healthy Sample.darkroom 0%nat "a red bicycle"
           Sample.premultiplied); reflexivity.
Qed.

(** C1, amended.  For every live input image whose mode PIL converts to
    RGBA and every non-empty caption, in every state in which the font
    block yields a font and that font measures the caption,
    [add_text_overlay] returns an image object that did not exist before
    the call, whose width and height are those of the input and whose mode
    is RGBA. *)
Theorem overlay_same_size_rgba {raster : Type} (E : environment raster)
    (w : world raster) (img : loc) (caption : string) (im : image raster) (f : font)
    (bbox : Z * Z * Z * Z) :
  caption <> "" ->
  heap w !! img = Some im ->
  convert_outcome E (im_mode im) "RGBA" = None ->
  fst (resolve_font E w) = Returned f ->
  textbbox E (0, 0) caption f = Returned bbox ->
  exists out w' im',
    add_text_overlay E img caption w = (Returned out, w') /\
    heap w !! out = None /\
    heap w' !! out = Some im' /\
    im_size im' = im_size im /\
    im_mode im' = "RGBA".
Proof.
  intros _ Hlive Hconv Hfont Hbbox.
  destruct (im_size im) as [iw ih] eqn:Hsize.
  destruct bbox as [[[b0 b1] b2] b3].
  destruct (overlay_returns E w img caption im f iw ih b0 b1 b2 b3
              Hlive Hconv Hsize Hfont Hbbox) as (k & out & Hrun).
  eexists _, _, _. split; [exact Hrun|].
  split; [apply new_loc_fresh|].
  split; [cbn [heap]; apply lookup_insert_eq|].
  split; reflexivity.
Qed.

Lemma overlay_same_size_rgba_witness :
  exists out w' im',
    add_text_overlay Sample.healthy 0%nat "a red bicycle" Sample.studio = (Returned out, w') /\
    heap Sample.studio !! out = None /\
    heap w' !! out = Some im' /\
    im_size im' = (512, 512) /\
    im_mode im' = "RGBA".
Proof.
  apply (overlay_same_size_rgba Sample.healthy Sample.studio 0%nat "a red bicycle"
           Sample.generated DefaultFont (0, 0, 78, 11)).
  - discriminate.
  - reflexivity.
  - reflexivity.
  - reflexivity.
  - reflexivity.
Defined.

(** ** The overlay: what is drawn, and where *)

Lemma half (q : Q) : (q / 2 == (1 # 2) * q)%Q.
Proof. unfold Qdiv. change (/ 2)%Q with (1 # 2)%Q. ring. Qed.

Lemma resolve_font_first_tier {raster : Type} (E : environment raster) (w : world raster) :
  load_default_outcome E (default_calls w) = None ->
  fst (resolve_font E w) = Returned DefaultFont.
Proof. intros Hok. rewrite resolve_font_unfold, Hok. reflexivity. Qed.

(** C5.  With [x] and [y] the anchor the source computes, the call makes
    exactly two [ImageDraw] calls, both on the returned image: first one
    rectangle from [(x - 10, y - 10)] to
    [(x + text_width + 10, y + text_height + 10)] filled with
    [(0, 0, 0, 128)], then the caption in ["white"] at [(x, y)]; the pixels
    of the result are the text painted over the rectangle painted over the
    converted input. *)
Theorem one_plate_then_caption {raster : Type} (E : environment raster)
    (w : world raster) (img : loc) (caption : string) (im : image raster) (f : font)
    (iw ih bbox0 bbox1 bbox2 bbox3 : Z) :
  heap w !! img = Some im ->
  convert_outcome E (im_mode im) "RGBA" = None ->
  im_size im = (iw, ih) ->
  fst (resolve_font E w) = Returned f ->
  textbbox E (0, 0) caption f = Returned (bbox0, bbox1, bbox2, bbox3) ->
  let text_width := bbox2 - bbox0 in
  let text_height := bbox3 - bbox1 in
  let x := (inject_Z (iw - text_width) / 2)%Q in
  let y := ih - text_height - 10 in
  let plate : box :=
    (((x - 10)%Q, y - 10), ((x + inject_Z text_width + 10)%Q, y + text_height + 10)) in
  exists out w',
    add_text_overlay E img caption w = (Returned out, w') /\
    drawn w' = drawn w ++ [Rectangle out plate (Tuple 0 0 0 128);
                           Text out (x, y) caption f (Named "white")] /\
    im_pixels <$> heap w' !! out =
    Some (paint_text E
            (paint_rectangle E (convert_pixels E (im_mode im) "RGBA" (im_pixels im))
               plate (Tuple 0 0 0 128))
            (x, y) caption f (Named "white")).
Proof.
  intros Hlive Hconv Hsize Hfont Hbbox text_width text_height x y plate.
  destruct (overlay_returns E w img caption im f iw ih bbox0 bbox1 bbox2 bbox3
              Hlive Hconv Hsize Hfont Hbbox) as (k & out & Hrun).
  eexists _, _. split; [exact Hrun|].
  split; [reflexivity|].
  cbn [heap]. rewrite lookup_insert_eq. reflexivity.
Qed.

Lemma one_plate_then_caption_witness :
  exists out w',
    add_text_overlay Sample.healthy 0%nat "a red bicycle" Sample.studio = (Returned out, w') /\
    drawn w' =
      [Rectangle out (((inject_Z (512 - (78 - 0)) / 2 - 10)%Q, 512 - (11 - 0) - 10 - 10),
                      ((inject_Z (512 - (78 - 0)) / 2 + inject_Z (78 - 0) + 10)%Q,
                       512 - (11 - 0) - 10 + (11 - 0) + 10))
                 (Tuple 0 0 0 128);
       Text out ((inject_Z (512 - (78 - 0)) / 2)%Q, 512 - (11 - 0) - 10)
            "a red bicycle" DefaultFont (Named "white")] /\
    im_pixels <$> heap w' !! out =
    Some [Sample.Converted "RGB" "RGBA";
          Sample.Filled (((inject_Z (512 - (78 - 0)) / 2 - 10)%Q, 512 - (11 - 0) - 10 - 10),
                         ((inject_Z (512 - (78 - 0)) / 2 + inject_Z (78 - 0) + 10)%Q,
                          512 - (11 - 0) - 10 + (11 - 0) + 10))
                        (Tuple 0 0 0 128);
          Sample.Lettered ((inject_Z (512 - (78 - 0)) / 2)%Q, 512 - (11 - 0) - 10)
                          "a red bicycle" DefaultFont (Named "white")].
Proof.
  apply (one_plate_then_caption Sample.healthy Sample.studio 0%nat "a red bicycle"
           Sample.generated DefaultFont 512 512 0 0 78 11); reflexivity.
Defined.

(** C7.  The rectangle drawn by [add_text_overlay] (it draws one once the
    copy is made, the font resolved and the caption measured) ends at
    ordinate [image_height]: the plate reaches the bottom edge of the image,
    with no gap below it. *)
Theorem plate_reaches_image_bottom {raster : Type} (E : environment raster)
    (w : world raster) (img : loc) (caption : string) (im : image raster) (f : font)
    (iw ih : Z) (bbox : Z * Z * Z * Z) :
  heap w !! img = Some im ->
  convert_outcome E (im_mode im) "RGBA" = None ->
  im_size im = (iw, ih) ->
  fst (resolve_font E w) = Returned f ->
  textbbox E (0, 0) caption f = Returned bbox ->
  exists out w' top_left right fill text_call,
    add_text_overlay E img caption w = (Returned out, w') /\
    drawn w' = drawn w ++ [Rectangle out (top_left, (right, ih)) fill; text_call].
Proof.
  intros Hlive Hconv Hsize Hfont Hbbox.
  destruct bbox as [[[b0 b1] b2] b3].
  destruct (overlay_returns E w img caption im f iw ih b0 b1 b2 b3
              Hlive Hconv Hsize Hfont Hbbox) as (k & out & Hrun).
  eexists _, _, _, _, _, _. split; [exact Hrun|].
  cbn [drawn].
  replace (ih - (b3 - b1) - 10 + (b3 - b1) + 10) with ih by lia.
  reflexivity.
Qed.

Lemma plate_reaches_image_bottom_witness :
  exists out w' top_left right fill text_call,
    add_text_overlay Sample.healthy 0%nat "a red bicycle" Sample.studio = (Returned out, w') /\
    drawn w' = [Rectangle out (top_left, (right, 512)) fill; text_call].
Proof.
  apply (plate_reaches_image_bottom Sample.healthy Sample.studio 0%nat "a red bicycle"
           Sample.generated DefaultFont 512 512 (0, 0, 78, 11)); reflexivity.
Defined.




(** C4.  The caption is anchored at ordinate
    [y = image_height - (bbox_bottom - bbox_top) - 10].  The ordinate owes
    nothing to the width of the caption: any other caption measured with
    the same height, however long, is anchored at the same [y]. *)
Theorem caption_bottom_margin {raster : Type} (E : environment raster)
    (w : world raster) (img : loc) (caption : string) (im : image raster) (f : font)
    (iw ih bbox0 bbox1 bbox2 bbox3 : Z) :
  heap w !! img = Some im ->
  convert_outcome E (im_mode im) "RGBA" = None ->
  im_size im = (iw, ih) ->
  fst (resolve_font E w) = Returned f ->
  textbbox E (0, 0) caption f = Returned (bbox0, bbox1, bbox2, bbox3) ->
  let y := ih - (bbox3 - bbox1) - 10 in
  exists out w' x plate_call,
    add_text_overlay E img caption w = (Returned out, w') /\
    drawn w' = drawn w ++ [plate_call; Text out (x, y) caption f (Named "white")] /\
    forall (other : string) (c0 c1 c2 c3 : Z),
      textbbox E (0, 0) other f = Returned (c0, c1, c2, c3) ->
      c3 - c1 = bbox3 - bbox1 ->
      exists out2 w2 x2 plate_call2,
        add_text_overlay E img other w = (Returned out2, w2) /\
        drawn w2 = drawn w ++ [plate_call2; Text out2 (x2, y) other f (Named "white")].
Proof.
  intros Hlive Hconv Hsize Hfont Hbbox y.
  destruct (overlay_returns E w img caption im f iw ih bbox0 bbox1 bbox2 bbox3
              Hlive Hconv Hsize Hfont Hbbox) as (k & out & Hrun).
  eexists _, _, _, _. split; [exact Hrun|].
  split; [reflexivity|].
  intros other c0 c1 c2 c3 Hother Hsame.
  destruct (overlay_returns E w img other im f iw ih c0 c1 c2 c3
              Hlive Hconv Hsize Hfont Hother) as (k2 & out2 & Hrun2).
  eexists _, _, _, _. split; [exact Hrun2|].
  cbn [drawn]. unfold y. rewrite Hsame. reflexivity.
Qed.

Lemma caption_bottom_margin_witness :
  exists out w' x plate_call,
    add_text_overlay Sample.healthy 0%nat "a red bicycle" Sample.studio = (Returned out, w') /\
    drawn w' = [plate_call;
                Text out (x, 512 - (11 - 0) - 10) "a red bicycle" DefaultFont (Named "white")] /\
    forall (other : string) (c0 c1 c2 c3 : Z),
      textbbox Sample.healthy (0, 0) other DefaultFont = Returned (c0, c1, c2, c3) ->
      c3 - c1 = 11 - 0 ->
      exists out2 w2 x2 plate_call2,
        add_text_overlay Sample.healthy 0%nat other Sample.studio = (Returned out2, w2) /\
        drawn w2 = [plate_call2;
                    Text out2 (x2, 512 - (11 - 0) - 10) other DefaultFont (Named "white")].
Proof.
  apply (caption_bottom_margin Sample.healthy Sample.studio 0%nat "a red bicycle"
           Sample.generated DefaultFont 512 512 0 0 78 11); reflexivity.
Defined.

(** C2, as claimed, fails.  On the 512 by 512 image, with the caption
    measured 78 wide and 11 high, the rectangle drawn ends at ordinate 512:
    not at [512 - 10], and not 10 pixels above the bottom [y + 11] of the
    caption box but 10 pixels below it. *)
Lemma plate_bottom_not_ten_above :
  exists out w' plate fill x y,
    add_text_overlay Sample.healthy 0%nat "a red bicycle" Sample.studio = (Returned out, w') /\
    textbbox Sample.healthy (0, 0) "a red bicycle" DefaultFont = Returned (0, 0, 78, 11) /\
    drawn w' = [Rectangle out plate fill;
                Text out (x, y) "a red bicycle" DefaultFont (Named "white")] /\
    snd (snd plate) = 512 /\
    snd (snd plate) <> 512 - 10 /\
    snd (snd plate) <> (y + 11) - 10.
Proof.
  destruct (overlay_returns Sample.healthy Sample.studio 0%nat "a red bicycle"
              Sample.generated DefaultFont 512 512 0 0 78 11
              eq_refl eq_refl eq_refl eq_refl eq_refl) as (k & out & Hrun).
  eexists _, _, _, _, _, _.
  split; [exact Hrun|].
  split; [reflexivity|].
  split; [reflexivity|].
  split; [reflexivity|].
  split; discriminate.
Qed.

(** C2, amended.  The bottom edge of the plate lies exactly 10 pixels below
    the bottom edge [y + text_height] of the caption box, on the bottom edge
    of the image, and the bottom edge of the caption box lies exactly 10
    pixels above the bottom edge of the image.  On a 512 by 512 image with
    measured width [W] and height [H] the rectangle has the corners
    [((512 - W) / 2 - 10, 512 - H - 20)] and [((512 - W) / 2 + W + 10, 512)]. *)
Theorem plate_and_caption_margins {raster : Type} (E : environment raster)
    (w : world raster) (img : loc) (caption : string) (im : image raster) (f : font)
    (iw ih bbox0 bbox1 bbox2 bbox3 : Z) :
  heap w !! img = Some im ->
  convert_outcome E (im_mode im) "RGBA" = None ->
  im_size im = (iw, ih) ->
  fst (resolve_font E w) = Returned f ->
  textbbox E (0, 0) caption f = Returned (bbox0, bbox1, bbox2, bbox3) ->
  let W := bbox2 - bbox0 in
  let H := bbox3 - bbox1 in
  exists out w' x y x1 y1 x2 y2 fill,
    add_text_overlay E img caption w = (Returned out, w') /\
    drawn w' = drawn w ++ [Rectangle out ((x1, y1), (x2, y2)) fill;
                           Text out (x, y) caption f (Named "white")] /\
    y2 - (y + H) = 10 /\
    y2 = ih /\
    ih - (y + H) = 10 /\
    (iw = 512 -> ih = 512 ->
     (x1 == (512 - inject_Z W) / 2 - 10)%Q /\ y1 = 512 - H - 20 /\
     (x2 == (512 - inject_Z W) / 2 + inject_Z W + 10)%Q /\ y2 = 512).
Proof.
  intros Hlive Hconv Hsize Hfont Hbbox W H.
  destruct (overlay_returns E w img caption im f iw ih bbox0 bbox1 bbox2 bbox3
              Hlive Hconv Hsize Hfont Hbbox) as (k & out & Hrun).
  eexists _, _, _, _, _, _, _, _, _. split; [exact Hrun|].
  split; [reflexivity|].
  fold W H. generalize W H. clear. intros W H.
  split; [lia|]. split; [lia|]. split; [lia|].
  intros -> ->.
  assert (Hx : (inject_Z (512 - W) / 2 == (1 # 2) * (512 - inject_Z W))%Q).
  { unfold Z.sub. rewrite inject_Z_plus, inject_Z_opp, half. ring. }
  split; [rewrite Hx, !half; ring|].
  split; [lia|].
  split; [rewrite Hx, !half; ring | lia].
Qed.

Lemma plate_and_caption_margins_witness :
  exists out w' x y x1 y1 x2 y2 fill,
    add_text_overlay Sample.healthy 0%nat "a red bicycle" Sample.studio = (Returned out, w') /\
    drawn w' = [Rectangle out ((x1, y1), (x2, y2)) fill;
                Text out (x, y) "a red bicycle" DefaultFont (Named "white")] /\
    y2 - (y + (11 - 0)) = 10 /\
    y2 = 512 /\
    512 - (y + (11 - 0)) = 10 /\
    (512 = 512 -> 512 = 512 ->
     (x1 == (512 - inject_Z (78 - 0)) / 2 - 10)%Q /\ y1 = 512 - (11 - 0) - 20 /\
     (x2 == (512 - inject_Z (78 - 0)) / 2 + inject_Z (78 - 0) + 10)%Q /\ y2 = 512).
Proof.
  apply (plate_and_caption_margins Sample.healthy Sample.studio 0%nat "a red bicycle"
           Sample.generated DefaultFont 512 512 0 0 78 11); reflexivity.
Defined.

(** ** Font failures *)

(** The font block lets an exception out in exactly three situations: the
    first tier raises something that is not an [IOError]; the first raises
    an [IOError] and the second something else; or both raise an [IOError]
    and the unguarded second call of [load_default] raises too. *)
Lemma resolve_font_raises_iff {raster : Type} (E : environment raster)
    (w : world raster) (e : exn) :
  fst (resolve_font E w) = Raised e <->
  exists e1, load_default_outcome E (default_calls w) = Some e1 /\
    ((is_IOError e1 = false /\ e = e1) \/
     (is_IOError e1 = true /\
      exists e2, truetype_outcome E dejavu 30 = Some e2 /\
        ((is_IOError e2 = false /\ e = e2) \/
         (is_IOError e2 = true /\
          load_default_outcome E (S (default_calls w)) = Some e)))).
Proof.
  rewrite resolve_font_unfold.
  destruct (load_default_outcome E (default_calls w)) as [e1|]; cbn [fst].
  2: { split; [discriminate | intros (e1 & Hno & _); discriminate]. }
  destruct (is_IOError e1) eqn:Hio1.
  2: { split.
       - intros [= <-]. exists e1. auto.
       - intros (e1' & [= <-] & [[_ ->] | [Hyes _]]); [reflexivity | congruence]. }
  destruct (truetype_outcome E dejavu 30) as [e2|]; cbn [fst].
  2: { split; [discriminate|].
       intros (e1' & [= <-] & [[Hno _] | [_ (e2 & Hno & _)]]); congruence. }
  destruct (is_IOError e2) eqn:Hio2.
  2: { split.
       - intros [= <-]. exists e1. split; [reflexivity|]. right. split; [assumption|].
         exists e2. auto.
       - intros (e1' & [= <-] & [[Hno _] | [_ (e2' & [= <-] & [[_ ->] | [Hyes _]])]]);
           [congruence | reflexivity | congruence]. }
  destruct (load_default_outcome E (S (default_calls w))) as [e3|]; cbn [fst].
  - split.
    + intros [= <-]. exists e1. split; [reflexivity|]. right. split; [assumption|].
      exists e2. auto.
    + intros (e1' & [= <-] & [[Hno _] | [_ (e2' & [= <-] & [[Hno _] | [_ [= ->]]])]]);
        [congruence | congruence | reflexivity].
  - split; [discriminate|].
    intros (e1' & [= <-] & [[Hno _] | [_ (e2' & [= <-] & [[Hno _] | [_ Hno]])]]);
      congruence.
Qed.

(** C6, on the code.  When no font can be loaded (every loader raises
    [IOError]) the second call of [load_default], which no handler guards,
    raises out of [add_text_overlay]: the message of the last tier is
    printed, nothing is drawn and no image is returned. *)
Theorem font_failure_escapes :
  exists w',
    add_text_overlay Sample.fontless 0%nat "a red bicycle" Sample.studio =
    (Raised (IOError "cannot open resource"), w') /\
    stdout w' = ["Error: Unable to load font, using basic font."] /\
    drawn w' = [].
Proof.
  destruct (overlay_raises Sample.fontless Sample.studio 0%nat "a red bicycle"
              Sample.generated (IOError "cannot open resource") eq_refl eq_refl eq_refl)
    as (k & out & Hrun).
  exists (snd (add_text_overlay Sample.fontless 0%nat "a red bicycle" Sample.studio)).
  split; [rewrite Hrun; reflexivity|].
  split; reflexivity.
Qed.

(** ** The input image is left alone *)

(** C8.  Whatever the call does (return or raise), every image object that
    was live before it, the input among them, has afterwards the mode, size
    and pixels it had; the object returned is none of them; and every
    [ImageDraw] call the invocation makes writes into another object. *)
Theorem input_image_unchanged {raster : Type} (E : environment raster)
    (w : world raster) (img : loc) (caption : string) (l : loc) (im : image raster) :
  heap w !! l = Some im ->
  heap (snd (add_text_overlay E img caption w)) !! l = Some im /\
  fst (add_text_overlay E img caption w) <> Returned l /\
  exists calls,
    drawn (snd (add_text_overlay E img caption w)) = drawn w ++ calls /\
    Forall (fun c => call_target c <> l) calls.
Proof.
  intros Hl.
  pose proof (new_loc_neq w l im Hl) as Hnew.
  destruct (heap w !! img) as [im0|] eqn:Hlive.
  2: { rewrite (overlay_dangling E w img caption Hlive). cbn [fst snd].
       split; [exact Hl|]. split; [discriminate|].
       exists []. split; [rewrite app_nil_r; reflexivity | constructor]. }
  destruct (convert_outcome E (im_mode im0) "RGBA") as [e0|] eqn:Hconv.
  { rewrite (overlay_convert_raises E w img caption im0 e0 Hlive Hconv). cbn [fst snd].
    split; [exact Hl|]. split; [discriminate|].
    exists []. split; [rewrite app_nil_r; reflexivity | constructor]. }
  destruct (fst (resolve_font E w)) as [f|e] eqn:Hfont.
  - destruct (textbbox E (0, 0) caption f) as [[[[b0 b1] b2] b3]|e] eqn:Hbbox.
    + destruct (im_size im0) as [iw ih] eqn:Hsize.
      destruct (overlay_returns E w img caption im0 f iw ih b0 b1 b2 b3
                  Hlive Hconv Hsize Hfont Hbbox) as (k & out & Hrun).
      rewrite Hrun. cbn [fst snd heap drawn].
      split; [rewrite lookup_insert_ne by exact Hnew; exact Hl|].
      split; [intros [= Heq]; exact (Hnew Heq)|].
      eexists. split; [reflexivity|].
      repeat constructor; exact Hnew.
    + destruct (overlay_measure_raises E w img caption im0 f e Hlive Hconv Hfont Hbbox)
        as (k & out & Hrun).
      rewrite Hrun. cbn [fst snd heap drawn].
      split; [rewrite lookup_insert_ne by exact Hnew; exact Hl|].
      split; [discriminate|].
      exists []. split; [rewrite app_nil_r; reflexivity | constructor].
  - destruct (overlay_raises E w img caption im0 e Hlive Hconv Hfont) as (k & out & Hrun).
    rewrite Hrun. cbn [fst snd heap drawn].
    split; [rewrite lookup_insert_ne by exact Hnew; exact Hl|].
    split; [discriminate|].
    exists []. split; [rewrite app_nil_r; reflexivity | constructor].
Qed.

Lemma input_image_unchanged_witness :
  heap (snd (add_text_overlay Sample.healthy 0%nat "a red bicycle" Sample.studio)) !! 0%nat =
    Some Sample.generated /\
  fst (add_text_overlay Sample.healthy 0%nat "a red bicycle" Sample.studio) <> Returned 0%nat /\
  exists calls,
    drawn (snd (add_text_overlay Sample.healthy 0%nat "a red bicycle" Sample.studio)) =
      drawn Sample.studio ++ calls /\
    Forall (fun c => call_target c <> 0%nat) calls.
Proof.
  apply (input_image_unchanged Sample.healthy Sample.studio 0%nat "a red bicycle"
           0%nat Sample.generated).
  reflexivity.
Defined.

(** ** The save path *)

(** C9, on the code.  The code sets out to save under
    [/content/drive/My Drive] (the comment above the join, the message
    [Image saved to Google Drive as ...]) but a file name that begins with a
    slash is taken by [os.path.join] as the whole path: with every library
    call succeeding, the run on the file name [/tmp/out] writes its one
    file at [/tmp/out.png], which is not under the root, and reports it as
    saved to the drive. *)
Theorem absolute_name_leaves_root :
  exists w' painted,
    generate_and_save_image Sample.healthy "a red bicycle" "/tmp/out" Sample.empty_world =
    (Returned tt, w') /\
    saved w' = [("/tmp/out.png", painted)] /\
    startswith "/tmp/out.png" "/content/drive/My Drive" = false /\
    In "Image saved to Google Drive as /tmp/out.png" (stdout w').
Proof.
  destruct (saved_run Sample.healthy Sample.empty_world "a red bicycle" "/tmp/out"
              Sample.generated DefaultFont 0 0 78 11)
    as (w' & out & painted & Hrun & Hsaved & _ & _ & _ & Hout);
    try reflexivity; [discriminate|].
  exists w', painted. split; [exact Hrun|]. split; [exact Hsaved|].
  split; [reflexivity|].
  rewrite Hout. apply in_or_app. right. apply in_or_app. right.
  apply in_or_app. right. apply in_or_app. left. left. reflexivity.
Qed.

(** ** Errors of the pipeline *)

(** C10.  [generate_and_save_image] never raises: it always returns.  For
    an empty description it only prints [Description is required!]: no
    prompt reaches the pipeline, no image object is created, nothing is
    drawn, saved or displayed.  When the generation, the overlay or the
    save raises [e], the last line printed is the error message built from
    [e], and no file is written and nothing is displayed. *)
Theorem failures_are_printed {raster : Type} (E : environment raster)
    (w : world raster) (description file_name : string) :
  exists w',
    generate_and_save_image E description file_name w = (Returned tt, w') /\
    (description = "" ->
     w' = World (heap w) (default_calls w) (prompts w)
                (stdout w ++ ["Description is required!"])
                (drawn w) (saved w) (shown w)) /\
    (description <> "" ->
     forall e, raised_before_file E w description file_name e ->
       last (stdout w') = Some ("Error during image generation: " +:+ exn_str e) /\
       saved w' = saved w /\
       shown w' = shown w).
Proof.
  destruct (string_dec description "") as [Hempty|Hd].
  { subst description. eexists. split; [apply empty_description_run|].
    split; [reflexivity | congruence]. }
  assert (Hlast : forall (a b c : list string) (line : string),
             last (a ++ b ++ c ++ [line]) = Some line).
  { intros a b c line. rewrite !app_assoc. apply last_snoc. }
  destruct (pipe_outcome E (length (prompts w)) description) as [im|e0] eqn:Hpipe.
  2: { eexists. split; [apply (generation_fails_run E w description file_name e0 Hd Hpipe)|].
       split; [congruence|]. intros _ e Hraised. cbn [stdout saved shown].
       assert (e = e0) by (destruct Hraised; congruence). subst e0.
       split; [apply (Hlast (stdout w) [] [_])|]. split; reflexivity. }
  pose proof (overlay_in_run_outcome E w description im) as Hoverlay.
  destruct (convert_outcome E (im_mode im) "RGBA") as [ec|] eqn:Hconv.
  { destruct (overlay_fails_run E w description file_name im ec Hd Hpipe Hoverlay)
      as (w' & out & Hrun & Hout & _ & Hsaved & Hshown).
    exists w'. split; [exact Hrun|]. split; [congruence|].
    intros _ e Hraised.
    assert (e = ec) by (destruct Hraised; congruence). subst ec.
    rewrite Hout. split; [apply Hlast|]. split; assumption. }
  destruct (fst (resolve_font E w)) as [f|e1] eqn:Hfont.
  2: { destruct (overlay_fails_run E w description file_name im e1 Hd Hpipe Hoverlay)
         as (w' & out & Hrun & Hout & _ & Hsaved & Hshown).
       exists w'. split; [exact Hrun|]. split; [congruence|].
       intros _ e Hraised.
       assert (e = e1) by (destruct Hraised; congruence). subst e1.
       rewrite Hout. split; [apply Hlast|]. split; assumption. }
  destruct (textbbox E (0, 0) description f) as [[[[b0 b1] b2] b3]|eb] eqn:Hbbox.
  2: { destruct (overlay_fails_run E w description file_name im eb Hd Hpipe Hoverlay)
         as (w' & out & Hrun & Hout & _ & Hsaved & Hshown).
       exists w'. split; [exact Hrun|]. split; [congruence|].
       intros _ e Hraised.
       assert (e = eb) by (destruct Hraised; congruence). subst eb.
       rewrite Hout. split; [apply Hlast|]. split; assumption. }
  clear Hoverlay.
  destruct (save_outcome E (os_path_join drive_root (with_png file_name)))
    as [e2|] eqn:Hsave.
  - destruct (save_fails_run E w description file_name im f b0 b1 b2 b3 e2
                Hd Hpipe Hconv Hfont Hbbox Hsave)
      as (w' & out & Hrun & Hout & Hsaved & Hshown).
    exists w'. split; [exact Hrun|]. split; [congruence|].
    intros _ e Hraised.
    assert (e = e2) by (destruct Hraised; congruence). subst e2.
    rewrite Hout. split; [apply Hlast|]. split; assumption.
  - destruct (saved_run E w description file_name im f b0 b1 b2 b3
                Hd Hpipe Hconv Hfont Hbbox Hsave)
      as (w' & out & painted & Hrun & _).
    exists w'. split; [exact Hrun|]. split; [congruence|].
    intros _ e Hraised. exfalso. destruct Hraised; congruence.
Qed.

Lemma failures_are_printed_witness :
  exists w',
    generate_and_save_image Sample.fontless "a red bicycle" "bike" Sample.empty_world =
    (Returned tt, w') /\
    last (stdout w') = Some "Error during image generation: cannot open resource" /\
    saved w' = [] /\
    shown w' = [].
Proof.
  destruct (failures_are_printed Sample.fontless Sample.empty_world "a red bicycle" "bike")
    as (w' & Hrun & _ & Hraised).
  exists w'. split; [exact Hrun|].
  apply (Hraised ltac:(discriminate) (IOError "cannot open resource")).
  apply (overlay_raises_in_run _ _ _ _ _ Sample.generated); reflexivity.
Defined.

(** * Further properties *)

(** ** The font tiers *)

(** X2.  The font block yields the DejaVu face at size 30 exactly when the
    first tier raises an [IOError] and the second tier loads; it yields the
    default font exactly when the first tier loads, or when the first two
    tiers raise an [IOError] and the repeated [load_default] loads; it
    yields no other font. *)
Theorem resolve_font_choice {raster : Type} (E : environment raster) (w : world raster) :
  (fst (resolve_font E w) = Returned (TrueTypeFont dejavu 30) <->
   exists e1, load_default_outcome E (default_calls w) = Some e1 /\
              is_IOError e1 = true /\ truetype_outcome E dejavu 30 = None) /\
  (fst (resolve_font E w) = Returned DefaultFont <->
   load_default_outcome E (default_calls w) = None \/
   exists e1 e2, load_default_outcome E (default_calls w) = Some e1 /\
                 is_IOError e1 = true /\
                 truetype_outcome E dejavu 30 = Some e2 /\ is_IOError e2 = true /\
                 load_default_outcome E (S (default_calls w)) = None) /\
  (forall f, fst (resolve_font E w) = Returned f ->
             f = DefaultFont \/ f = TrueTypeFont dejavu 30).
Proof.
  rewrite resolve_font_unfold.
  destruct (load_default_outcome E (default_calls w)) as [e1|]; cbn [fst].
  2: { split; [split; [discriminate | intros (e & He & _); discriminate]|].
       split; [split; auto|]. intros f [= <-]. auto. }
  destruct (is_IOError e1) eqn:Hio1; cbn [fst].
  2: { split; [split; [discriminate | intros (e & [= <-] & Hio & _); congruence]|].
       split; [|discriminate].
       split; [discriminate|].
       intros [Hno | (e & e2 & [= <-] & Hio & _)]; congruence. }
  destruct (truetype_outcome E dejavu 30) as [e2|]; cbn [fst].
  2: { split; [split; [intros _; exists e1; auto | reflexivity]|].
       split; [|intros f [= <-]; auto].
       split; [discriminate|].
       intros [Hno | (e & e2 & _ & _ & Hno & _)]; discriminate. }
  destruct (is_IOError e2) eqn:Hio2; cbn [fst].
  2: { split; [split; [discriminate | intros (e & _ & _ & Hno); discriminate]|].
       split; [|discriminate].
       split; [discriminate|].
       intros [Hno | (e & e2' & _ & _ & [= <-] & Hio & _)]; congruence. }
  destruct (load_default_outcome E (S (default_calls w))) as [e3|]; cbn [fst].
  - split; [split; [discriminate | intros (e & _ & _ & Hno); discriminate]|].
    split; [|discriminate].
    split; [discriminate|].
    intros [Hno | (e & e2' & _ & _ & _ & _ & Hno)]; discriminate.
  - split; [split; [discriminate | intros (e & _ & _ & Hno); discriminate]|].
    split; [|intros f [= <-]; auto].
    split; [|reflexivity].
    intros _. right. exists e1, e2. auto.
Qed.

Lemma resolve_font_choice_witness :
  fst (resolve_font Sample.healthy Sample.studio) = Returned DefaultFont.
Proof.
  apply (proj1 (proj2 (resolve_font_choice Sample.healthy Sample.studio))).
  left. reflexivity.
Defined.

(** X3.  The font block prints its one line, and only that line, exactly
    when the first two tiers both raise an [IOError], whether or not the
    repeated [load_default] then loads; in every other case it prints
    nothing. *)
Theorem resolve_font_message {raster : Type} (E : environment raster) (w : world raster) :
  let both_fail :=
    exists e1 e2, load_default_outcome E (default_calls w) = Some e1 /\
                  is_IOError e1 = true /\
                  truetype_outcome E dejavu 30 = Some e2 /\ is_IOError e2 = true in
  (both_fail ->
   stdout (snd (resolve_font E w)) =
   stdout w ++ ["Error: Unable to load font, using basic font."]) /\
  (~ both_fail -> stdout (snd (resolve_font E w)) = stdout w).
Proof.
  intros both_fail. unfold both_fail. rewrite resolve_font_unfold. split.
  - intros (e1 & e2 & -> & -> & -> & ->).
    destruct (load_default_outcome E (S (default_calls w))); reflexivity.
  - intros Hnot.
    destruct (load_default_outcome E (default_calls w)) as [e1|];
      [|cbn [snd after_fonts stdout]; apply app_nil_r].
    destruct (is_IOError e1) eqn:Hio1;
      [|cbn [snd after_fonts stdout]; apply app_nil_r].
    destruct (truetype_outcome E dejavu 30) as [e2|];
      [|cbn [snd after_fonts stdout]; apply app_nil_r].
    destruct (is_IOError e2) eqn:Hio2;
      [|cbn [snd after_fonts stdout]; apply app_nil_r].
    exfalso. apply Hnot. exists e1, e2. auto.
Qed.

Lemma resolve_font_message_witness :
  stdout (snd (resolve_font Sample.fontless Sample.studio)) =
  ["Error: Unable to load font, using basic font."].
Proof.
  apply (proj1 (resolve_font_message Sample.fontless Sample.studio)).
  exists (IOError "cannot open resource"), (IOError "cannot open resource").
  repeat split; reflexivity.
Defined.

(** ** The plate *)

(** X4.  The plate is [text_width + 20] wide and [text_height + 20] high
    whatever the size of the image, the caption is anchored 10 pixels
    inside its top-left corner, and its left and right edges are
    mirror images about the vertical centre line of the image. *)
Theorem plate_size_and_symmetry {raster : Type} (E : environment raster)
    (w : world raster) (img : loc) (caption : string) (im : image raster) (f : font)
    (iw ih bbox0 bbox1 bbox2 bbox3 : Z) :
  heap w !! img = Some im ->
  convert_outcome E (im_mode im) "RGBA" = None ->
  im_size im = (iw, ih) ->
  fst (resolve_font E w) = Returned f ->
  textbbox E (0, 0) caption f = Returned (bbox0, bbox1, bbox2, bbox3) ->
  exists out w' x y x1 y1 x2 y2 fill,
    add_text_overlay E img caption w = (Returned out, w') /\
    drawn w' = drawn w ++ [Rectangle out ((x1, y1), (x2, y2)) fill;
                           Text out (x, y) caption f (Named "white")] /\
    (x2 - x1 == inject_Z (bbox2 - bbox0 + 20))%Q /\
    y2 - y1 = bbox3 - bbox1 + 20 /\
    (x - x1 == 10)%Q /\ y - y1 = 10 /\
    (x1 + x2 == inject_Z iw)%Q.
Proof.
  intros Hlive Hconv Hsize Hfont Hbbox.
  destruct (overlay_returns E w img caption im f iw ih bbox0 bbox1 bbox2 bbox3
              Hlive Hconv Hsize Hfont Hbbox) as (k & out & Hrun).
  eexists _, _, _, _, _, _, _, _, _. split; [exact Hrun|].
  split; [reflexivity|].
  generalize (bbox2 - bbox0) (bbox3 - bbox1). clear. intros tw th.
  assert (Hx : (inject_Z (iw - tw) / 2 == (1 # 2) * (inject_Z iw - inject_Z tw))%Q).
  { unfold Z.sub. rewrite inject_Z_plus, inject_Z_opp, half. ring. }
  split; [rewrite inject_Z_plus; change (inject_Z 20) with 20%Q; ring|].
  split; [lia|].
  split; [ring|].
  split; [lia|].
  rewrite Hx. ring.
Qed.

Lemma plate_size_and_symmetry_witness :
  exists out w' x y x1 y1 x2 y2 fill,
    add_text_overlay Sample.healthy 0%nat "a red bicycle" Sample.studio = (Returned out, w') /\
    drawn w' = drawn Sample.studio ++
               [Rectangle out ((x1, y1), (x2, y2)) fill;
                Text out (x, y) "a red bicycle" DefaultFont (Named "white")] /\
    (x2 - x1 == inject_Z (78 - 0 + 20))%Q /\
    y2 - y1 = 11 - 0 + 20 /\
    (x - x1 == 10)%Q /\ y - y1 = 10 /\
    (x1 + x2 == inject_Z 512)%Q.
Proof.
  apply (plate_size_and_symmetry Sample.healthy Sample.studio 0%nat "a red bicycle"
           Sample.generated DefaultFont 512 512 0 0 78 11); reflexivity.
Defined.

(** X5.  Nothing is clamped.  The plate stays between the left and right
    edges of the image exactly when [text_width + 20 <= image_width], and
    below its top edge exactly when [text_height + 20 <= image_height]; a
    wider caption puts the left edge of the plate at a negative abscissa. *)
Theorem plate_inside_image_iff {raster : Type} (E : environment raster)
    (w : world raster) (img : loc) (caption : string) (im : image raster) (f : font)
    (iw ih bbox0 bbox1 bbox2 bbox3 : Z) :
  heap w !! img = Some im ->
  convert_outcome E (im_mode im) "RGBA" = None ->
  im_size im = (iw, ih) ->
  fst (resolve_font E w) = Returned f ->
  textbbox E (0, 0) caption f = Returned (bbox0, bbox1, bbox2, bbox3) ->
  exists out w' x1 y1 x2 y2 fill text_call,
    add_text_overlay E img caption w = (Returned out, w') /\
    drawn w' = drawn w ++ [Rectangle out ((x1, y1), (x2, y2)) fill; text_call] /\
    ((0 <= x1)%Q /\ (x2 <= inject_Z iw)%Q <-> bbox2 - bbox0 + 20 <= iw) /\
    ((x1 < 0)%Q <-> iw < bbox2 - bbox0 + 20) /\
    (0 <= y1 <-> bbox3 - bbox1 + 20 <= ih).
Proof.
  intros Hlive Hconv Hsize Hfont Hbbox.
  destruct (overlay_returns E w img caption im f iw ih bbox0 bbox1 bbox2 bbox3
              Hlive Hconv Hsize Hfont Hbbox) as (k & out & Hrun).
  eexists _, _, _, _, _, _, _, _. split; [exact Hrun|].
  split; [reflexivity|].
  generalize (bbox2 - bbox0) (bbox3 - bbox1). clear. intros tw th.
  assert (Hx : (inject_Z (iw - tw) / 2 == (1 # 2) * (inject_Z iw - inject_Z tw))%Q).
  { unfold Z.sub. rewrite inject_Z_plus, inject_Z_opp, half. ring. }
  rewrite Zle_Qle, Zlt_Qlt, inject_Z_plus. change (inject_Z 20) with 20%Q.
  rewrite !Hx.
  split; [split; [intros [Hl Hr] | intros Hle; split]; lra|].
  split; [split; intros Hlt; lra|].
  lia.
Qed.

Lemma plate_inside_image_iff_witness :
  exists out w' x1 y1 x2 y2 fill text_call,
    add_text_overlay Sample.healthy 0%nat "a red bicycle" Sample.studio = (Returned out, w') /\
    drawn w' = drawn Sample.studio ++
               [Rectangle out ((x1, y1), (x2, y2)) fill; text_call] /\
    ((0 <= x1)%Q /\ (x2 <= inject_Z 512)%Q <-> 78 - 0 + 20 <= 512) /\
    ((x1 < 0)%Q <-> 512 < 78 - 0 + 20) /\
    (0 <= y1 <-> 11 - 0 + 20 <= 512).
Proof.
  apply (plate_inside_image_iff Sample.healthy Sample.studio 0%nat "a red bicycle"
           Sample.generated DefaultFont 512 512 0 0 78 11); reflexivity.
Defined.

(** ** What the overlay leaves behind *)

(** X6.  When [add_text_overlay] raises on a live image, no [ImageDraw]
    call has been made, and the exception comes from one of three places.
    Either [convert] raised it: then no object was created and the font
    block was never reached.  Or the font block raised it, or the font
    block returned a font and measuring the caption raised it: then the
    RGBA copy made by [convert] has already been created and is left behind,
    undrawn, as the one new object. *)
Theorem overlay_raise_draws_nothing {raster : Type} (E : environment raster)
    (w w' : world raster) (img : loc) (caption : string) (im : image raster) (e : exn) :
  heap w !! img = Some im ->
  add_text_overlay E img caption w = (Raised e, w') ->
  drawn w' = drawn w /\
  ((convert_outcome E (im_mode im) "RGBA" = Some e /\
    heap w' = heap w /\ default_calls w' = default_calls w) \/
   (convert_outcome E (im_mode im) "RGBA" = None /\
    (fst (resolve_font E w) = Raised e \/
     exists f, fst (resolve_font E w) = Returned f /\
               textbbox E (0, 0) caption f = Raised e) /\
    heap w' = <[new_loc w := converted E im]> (heap w) /\
    heap w !! new_loc w = None)).
Proof.
  intros Hlive Hrun.
  destruct (convert_outcome E (im_mode im) "RGBA") as [e0|] eqn:Hconv.
  { rewrite (overlay_convert_raises E w img caption im e0 Hlive Hconv) in Hrun.
    injection Hrun as -> <-. split; [reflexivity|]. left. auto. }
  destruct (fst (resolve_font E w)) as [f|e1] eqn:Hfont.
  2: { destruct (overlay_raises E w img caption im e1 Hlive Hconv Hfont)
         as (k & out & Hraise).
       rewrite Hraise in Hrun. injection Hrun as -> <-.
       split; [reflexivity|]. right. split; [reflexivity|].
       split; [left; reflexivity|]. split; [reflexivity | apply new_loc_fresh]. }
  destruct (textbbox E (0, 0) caption f) as [[[[b0 b1] b2] b3]|e2] eqn:Hbbox.
  - destruct (im_size im) as [iw ih] eqn:Hsize.
    destruct (overlay_returns E w img caption im f iw ih b0 b1 b2 b3
                Hlive Hconv Hsize Hfont Hbbox) as (k & out & Hret).
    rewrite Hret in Hrun. discriminate.
  - destruct (overlay_measure_raises E w img caption im f e2 Hlive Hconv Hfont Hbbox)
      as (k & out & Hraise).
    rewrite Hraise in Hrun. injection Hrun as -> <-.
    split; [reflexivity|]. right. split; [reflexivity|].
    split; [right; exists f; auto|]. split; [reflexivity | apply new_loc_fresh].
Qed.

Lemma overlay_raise_draws_nothing_witness :
  drawn (snd (add_text_overlay Sample.unmeasurable 0%nat "a red bicycle" Sample.studio)) =
    drawn Sample.studio /\
  ((convert_outcome Sample.unmeasurable (im_mode Sample.generated) "RGBA" =
      Some (OtherException "ValueError" "text too long") /\
    heap (snd (add_text_overlay Sample.unmeasurable 0%nat "a red bicycle" Sample.studio)) =
      heap Sample.studio /\
    default_calls
      (snd (add_text_overlay Sample.unmeasurable 0%nat "a red bicycle" Sample.studio)) =
      default_calls Sample.studio) \/
   (convert_outcome Sample.unmeasurable (im_mode Sample.generated) "RGBA" = None /\
    (fst (resolve_font Sample.unmeasurable Sample.studio) =
       Raised (OtherException "ValueError" "text too long") \/
     exists f, fst (resolve_font Sample.unmeasurable Sample.studio) = Returned f /\
               textbbox Sample.unmeasurable (0, 0) "a red bicycle" f =
               Raised (OtherException "ValueError" "text too long")) /\
    heap (snd (add_text_overlay Sample.unmeasurable 0%nat "a red bicycle" Sample.studio)) =
      <[new_loc Sample.studio := converted Sample.unmeasurable Sample.generated]>
        (heap Sample.studio) /\
    heap Sample.studio !! new_loc Sample.studio = None)).
Proof.
  apply (overlay_raise_draws_nothing Sample.unmeasurable Sample.studio _ 0%nat
           "a red bicycle" Sample.generated
           (OtherException "ValueError" "text too long")).
  - reflexivity.
  - destruct (overlay_measure_raises Sample.unmeasurable Sample.studio 0%nat
                "a red bicycle" Sample.generated DefaultFont
                (OtherException "ValueError" "text too long")
                eq_refl eq_refl eq_refl eq_refl) as (k & out & Hrun).
    rewrite Hrun. reflexivity.
Defined.

Section Frames.
Context {raster : Type}.

Lemma keeps_ret {A T} (part : world raster -> T) (a : A) : keeps part (ret a).
Proof. intros w. reflexivity. Qed.

Lemma keeps_raise {A T} (part : world raster -> T) (e : exn) :
  keeps part (raise (A := A) e).
Proof. intros w. reflexivity. Qed.

Lemma keeps_bind {A B T} (part : world raster -> T) (c : M raster A) (k : A -> M raster B) :
  keeps part c -> (forall a, keeps part (k a)) -> keeps part (bind c k).
Proof.
  intros Hc Hk w. unfold bind. specialize (Hc w).
  destruct (c w) as [[a|e] w1]; cbn [snd] in *.
  - rewrite (Hk a w1). exact Hc.
  - exact Hc.
Qed.

Lemma keeps_try_except {A T} (part : world raster -> T) (body : M raster A)
    (classes : exn -> bool) (handler : exn -> M raster A) :
  keeps part body -> (forall e, keeps part (handler e)) ->
  keeps part (try_except body classes handler).
Proof.
  intros Hb Hh w. unfold try_except. specialize (Hb w).
  destruct (body w) as [[a|e] w1]; cbn [snd] in *; [exact Hb|].
  destruct (classes e); cbn [snd]; [|exact Hb].
  rewrite (Hh e w1). exact Hb.
Qed.

Lemma grown_refl (w : world raster) : grown w w.
Proof.
  split; [auto|]. repeat split; exists []; symmetry; apply app_nil_r.
Qed.

Lemma grown_trans (w1 w2 w3 : world raster) : grown w1 w2 -> grown w2 w3 -> grown w1 w3.
Proof.
  intros (Hh & (p & Hp) & (o & Ho) & (d & Hd) & (s & Hs) & (v & Hv))
         (Hh' & (p' & Hp') & (o' & Ho') & (d' & Hd') & (s' & Hs') & (v' & Hv')).
  split; [auto|].
  repeat split.
  - exists (p ++ p'). rewrite Hp', Hp, app_assoc. reflexivity.
  - exists (o ++ o'). rewrite Ho', Ho, app_assoc. reflexivity.
  - exists (d ++ d'). rewrite Hd', Hd, app_assoc. reflexivity.
  - exists (s ++ s'). rewrite Hs', Hs, app_assoc. reflexivity.
  - exists (v ++ v'). rewrite Hv', Hv, app_assoc. reflexivity.
Qed.

Lemma grows_ret {A} (a : A) : grows (ret (raster := raster) a).
Proof. intros w. apply grown_refl. Qed.

Lemma grows_raise {A} (e : exn) : grows (raise (raster := raster) (A := A) e).
Proof. intros w. apply grown_refl. Qed.

Lemma grows_bind {A B} (c : M raster A) (k : A -> M raster B) :
  grows c -> (forall a, grows (k a)) -> grows (bind c k).
Proof.
  intros Hc Hk w. unfold bind. specialize (Hc w).
  destruct (c w) as [[a|e] w1]; cbn [snd] in *; [|exact Hc].
  exact (grown_trans _ _ _ Hc (Hk a w1)).
Qed.

Lemma grows_try_except {A} (body : M raster A) (classes : exn -> bool)
    (handler : exn -> M raster A) :
  grows body -> (forall e, grows (handler e)) -> grows (try_except body classes handler).
Proof.
  intros Hb Hh w. unfold try_except. specialize (Hb w).
  destruct (body w) as [[a|e] w1]; cbn [snd] in *; [exact Hb|].
  destruct (classes e); cbn [snd]; [|exact Hb].
  exact (grown_trans _ _ _ Hb (Hh e w1)).
Qed.

(** A world that differs from [w] by new objects and longer logs. *)
Lemma grown_build (w : world raster) h n p o d s v :
  (forall l im, heap w !! l = Some im -> h !! l = Some im) ->
  grown w (World h n (prompts w ++ p) (stdout w ++ o) (drawn w ++ d)
                 (saved w ++ s) (shown w ++ v)).
Proof. intros Hh. split; [exact Hh|]. cbn. repeat split; eexists; reflexivity. Qed.

Lemma grown_same (w : world raster) n p o d s v :
  grown w (World (heap w) n (prompts w ++ p) (stdout w ++ o) (drawn w ++ d)
                 (saved w ++ s) (shown w ++ v)).
Proof. apply grown_build. auto. Qed.

Lemma heap_insert_new (w : world raster) (new : image raster) l im :
  heap w !! l = Some im -> <[new_loc w := new]> (heap w) !! l = Some im.
Proof.
  intros Hl. rewrite lookup_insert_ne; [exact Hl | exact (new_loc_neq w l im Hl)].
Qed.

End Frames.

Section OverlayFrames.
Context {raster : Type}.
Variable E : environment raster.

Ltac keeps_prim :=
  let w := fresh "w" in
  intros w;
  unfold Image_convert, Image_size, ImageDraw_Draw, draw_textbbox, draw_rectangle,
    draw_text, paint, ImageFont_load_default, ImageFont_truetype, Image_save, display,
    print, deref, allocate, with_heap, bind, ret, raise;
  repeat match goal with
         | |- context [match ?x with _ => _ end] =>
             match x with
             | context [match _ with _ => _ end] => fail 1
             | _ => destruct x
             end
         end;
  reflexivity.

Lemma resolve_font_keeps_outside : keeps outside_overlay (resolve_font E).
Proof.
  unfold resolve_font.
  apply keeps_try_except; [keeps_prim | intros _].
  apply keeps_try_except; [keeps_prim | intros _].
  apply keeps_bind; [keeps_prim | intros _]. keeps_prim.
Qed.

Lemma add_text_overlay_keeps_outside (img : loc) (text : string) :
  keeps outside_overlay (add_text_overlay E img text).
Proof.
  unfold add_text_overlay.
  apply keeps_bind; [keeps_prim | intros pil].
  apply keeps_bind; [keeps_prim | intros draw].
  apply keeps_bind; [apply resolve_font_keeps_outside | intros f].
  apply keeps_bind; [keeps_prim | intros [[[b0 b1] b2] b3]].
  apply keeps_bind; [keeps_prim | intros [iw ih]].
  apply keeps_bind; [keeps_prim | intros _].
  apply keeps_bind; [keeps_prim | intros _].
  keeps_prim.
Qed.

Lemma add_text_overlay_grows (img : loc) (text : string) :
  grows (add_text_overlay E img text).
Proof.
  intros w.
  destruct (heap w !! img) as [im|] eqn:Hlive.
  2: { rewrite (overlay_dangling E w img text Hlive). apply grown_refl. }
  destruct (fst (add_text_overlay E img text w)) as [l|e] eqn:Hfst.
  - rewrite (overlay_outcome E w img text im Hlive) in Hfst.
    destruct (convert_outcome E (im_mode im) "RGBA") as [e0|] eqn:Hconv; [discriminate|].
    destruct (fst (resolve_font E w)) as [f|e1] eqn:Hfont; [|discriminate].
    destruct (textbbox E (0, 0) text f) as [[[[b0 b1] b2] b3]|e2] eqn:Hbbox;
      [|discriminate].
    destruct (im_size im) as [iw ih] eqn:Hsize.
    destruct (overlay_returns E w img text im f iw ih b0 b1 b2 b3
                Hlive Hconv Hsize Hfont Hbbox) as (k & out & Hrun).
    rewrite Hrun. cbn [snd].
    rewrite <- (app_nil_r (prompts w)), <- (app_nil_r (saved w)), <- (app_nil_r (shown w)).
    apply grown_build. intros l0 im0. apply heap_insert_new.
  - destruct (overlay_raise_world E w img text im e Hlive Hfst)
      as (h & k & out & Hworld & Hheap).
    rewrite Hworld.
    rewrite <- (app_nil_r (prompts w)), <- (app_nil_r (saved w)), <- (app_nil_r (shown w)),
      <- (app_nil_r (drawn w)).
    apply grown_build. intros l0 im0 Hl0.
    destruct Hheap as [-> | ->]; [exact Hl0 | apply heap_insert_new, Hl0].
Qed.

Lemma resolve_font_prints (w : world raster) :
  stdout (snd (resolve_font E w)) = stdout w \/
  stdout (snd (resolve_font E w)) =
  stdout w ++ ["Error: Unable to load font, using basic font."].
Proof.
  rewrite resolve_font_unfold.
  repeat match goal with
         | |- context [match ?x with _ => _ end] => destruct x
         end;
    cbn [snd after_fonts stdout]; rewrite ?app_nil_r; auto.
Qed.

(** Past the font block no statement of the overlay prints. *)
Lemma add_text_overlay_prints (img : loc) (text : string) (w : world raster) :
  stdout (snd (add_text_overlay E img text w)) = stdout w \/
  stdout (snd (add_text_overlay E img text w)) =
  stdout w ++ ["Error: Unable to load font, using basic font."].
Proof.
  cut (forall t, t = snd (add_text_overlay E img text w) ->
                 stdout t = stdout w \/
                 stdout t = stdout w ++ ["Error: Unable to load font, using basic font."]).
  { intros Hall. apply Hall. reflexivity. }
  intros t Ht.
  unfold add_text_overlay in Ht. unfold bind at 1 in Ht.
  assert (Hconvert : keeps stdout (Image_convert E img "RGBA")) by keeps_prim.
  specialize (Hconvert w).
  destruct (Image_convert E img "RGBA" w) as [[pil|e] w0]; cbn [snd] in *;
    [|subst t; left; exact Hconvert].
  unfold bind at 1, ImageDraw_Draw, ret in Ht. unfold bind at 1 in Ht.
  pose proof (resolve_font_prints w0) as Hfont. rewrite Hconvert in Hfont.
  destruct (resolve_font E w0) as [[f|e] w1]; cbn [snd] in *; [|subst t; exact Hfont].
  match type of Ht with
  | t = snd (?rest w1) =>
      assert (Hrest : keeps stdout rest);
      [|subst t; rewrite (Hrest w1); exact Hfont]
  end.
  apply keeps_bind; [keeps_prim | intros [[[b0 b1] b2] b3]].
  apply keeps_bind; [keeps_prim | intros [iw ih]].
  apply keeps_bind; [keeps_prim | intros _].
  apply keeps_bind; [keeps_prim | intros _].
  keeps_prim.
Qed.

End OverlayFrames.

(** X7.  What [add_text_overlay] does outside the images.  Whether it
    returns or raises, it has handed no prompt to the pipeline, written no
    image file and displayed nothing; and it has printed nothing, or the
    one line of the font block, [Error: Unable to load font, using basic
    font.], once. *)
Theorem overlay_effects_outside_images {raster : Type} (E : environment raster)
    (w : world raster) (img : loc) (caption : string) :
  prompts (snd (add_text_overlay E img caption w)) = prompts w /\
  saved (snd (add_text_overlay E img caption w)) = saved w /\
  shown (snd (add_text_overlay E img caption w)) = shown w /\
  (stdout (snd (add_text_overlay E img caption w)) = stdout w \/
   stdout (snd (add_text_overlay E img caption w)) =
   stdout w ++ ["Error: Unable to load font, using basic font."]).
Proof.
  pose proof (add_text_overlay_keeps_outside E img caption w) as Hkeep.
  unfold outside_overlay in Hkeep. injection Hkeep as Hp Hs Hv.
  split; [exact Hp|]. split; [exact Hs|]. split; [exact Hv|].
  apply add_text_overlay_prints.
Qed.

(** X8.  Captioning a captioned image.  When the default font loads and
    measures both captions, and PIL converts the mode of the input and the
    mode RGBA to RGBA, a second call on the result of a first one draws on
    yet another copy: the three objects are distinct, the input and the
    first result are as the first call left them, the second result has the
    size of the input, and the four [ImageDraw] calls are two on the first
    result followed by two on the second. *)
Theorem overlay_twice {raster : Type} (E : environment raster)
    (w : world raster) (img : loc) (first second : string) (im : image raster)
    (bbox1 bbox2 : Z * Z * Z * Z) :
  heap w !! img = Some im ->
  convert_outcome E (im_mode im) "RGBA" = None ->
  convert_outcome E "RGBA" "RGBA" = None ->
  (forall n, load_default_outcome E n = None) ->
  textbbox E (0, 0) first DefaultFont = Returned bbox1 ->
  textbbox E (0, 0) second DefaultFont = Returned bbox2 ->
  exists out1 w1 out2 w2,
    add_text_overlay E img first w = (Returned out1, w1) /\
    add_text_overlay E out1 second w1 = (Returned out2, w2) /\
    out1 <> img /\ out2 <> img /\ out2 <> out1 /\
    heap w2 !! img = Some im /\
    heap w2 !! out1 = heap w1 !! out1 /\
    im_size <$> heap w2 !! out2 = Some (im_size im) /\
    exists plate1 text1 plate2 text2,
      drawn w2 = drawn w ++ [plate1; text1; plate2; text2] /\
      call_target plate1 = out1 /\ call_target text1 = out1 /\
      call_target plate2 = out2 /\ call_target text2 = out2.
Proof.
  intros Hlive Hconv Hconv2 Hfonts Hbbox1 Hbbox2.
  destruct (im_size im) as [iw ih] eqn:Hsize.
  destruct bbox1 as [[[b0 b1] b2] b3].
  destruct (overlay_returns E w img first im DefaultFont iw ih b0 b1 b2 b3
              Hlive Hconv Hsize (resolve_font_first_tier E w (Hfonts _)) Hbbox1)
    as (k1 & o1 & Hrun1).
  match type of Hrun1 with _ = (_, ?after) => set (w1 := after) in * end.
  assert (Hlive1 : heap w1 !! new_loc w =
                   Some (Image "RGBA" (iw, ih)
                           (paint_text E
                              (paint_rectangle E
                                 (convert_pixels E (im_mode im) "RGBA" (im_pixels im))
                                 (((inject_Z (iw - (b2 - b0)) / 2 - 10)%Q,
                                   ih - (b3 - b1) - 10 - 10),
                                  ((inject_Z (iw - (b2 - b0)) / 2 + inject_Z (b2 - b0) + 10)%Q,
                                   ih - (b3 - b1) - 10 + (b3 - b1) + 10))
                                 (Tuple 0 0 0 128))
                              ((inject_Z (iw - (b2 - b0)) / 2)%Q, ih - (b3 - b1) - 10)
                              first DefaultFont (Named "white")))).
  { unfold w1. cbn [heap]. apply lookup_insert_eq. }
  destruct bbox2 as [[[c0 c1] c2] c3].
  destruct (overlay_returns E w1 (new_loc w) second _ DefaultFont iw ih c0 c1 c2 c3
              Hlive1 Hconv2 eq_refl (resolve_font_first_tier E w1 (Hfonts _)) Hbbox2)
    as (k2 & o2 & Hrun2).
  assert (Himg1 : heap w1 !! img = Some im).
  { unfold w1. cbn [heap]. apply heap_insert_new, Hlive. }
  eexists _, _, _, _. split; [exact Hrun1|]. split; [exact Hrun2|].
  split; [exact (new_loc_neq w img im Hlive)|].
  split; [exact (new_loc_neq w1 img im Himg1)|].
  split; [exact (new_loc_neq w1 _ _ Hlive1)|].
  cbn [heap].
  split; [apply heap_insert_new, Himg1|].
  split; [rewrite (heap_insert_new w1 _ _ _ Hlive1); symmetry; exact Hlive1|].
  split; [rewrite lookup_insert_eq; reflexivity|].
  eexists _, _, _, _.
  split; [cbn [drawn]; unfold w1; cbn [drawn]; rewrite <- app_assoc; reflexivity|].
  repeat split; reflexivity.
Qed.

Lemma overlay_twice_witness :
  exists out1 w1 out2 w2,
    add_text_overlay Sample.healthy 0%nat "a red bicycle" Sample.studio = (Returned out1, w1) /\
    add_text_overlay Sample.healthy out1 "by the sea" w1 = (Returned out2, w2) /\
    out1 <> 0%nat /\ out2 <> 0%nat /\ out2 <> out1 /\
    heap w2 !! 0%nat = Some Sample.generated /\
    heap w2 !! out1 = heap w1 !! out1 /\
    im_size <$> heap w2 !! out2 = Some (im_size Sample.generated) /\
    exists plate1 text1 plate2 text2,
      drawn w2 = drawn Sample.studio ++ [plate1; text1; plate2; text2] /\
      call_target plate1 = out1 /\ call_target text1 = out1 /\
      call_target plate2 = out2 /\ call_target text2 = out2.
Proof.
  apply (overlay_twice Sample.healthy Sample.studio 0%nat "a red bicycle" "by the sea"
           Sample.generated (0, 0, 78, 11) (0, 0, 60, 11)).
  - reflexivity.
  - reflexivity.
  - reflexivity.
  - intros n. reflexivity.
  - reflexivity.
  - reflexivity.
Defined.

(** ** The pipeline as a whole *)

Section PipelineFrames.
Context {raster : Type}.
Variable E : environment raster.

Ltac log_grows :=
  let w := fresh "w" in
  intros w; split; [cbn; first [tauto | intros ? ?; apply heap_insert_new]|];
  cbn; repeat split;
  first [eexists; reflexivity | exists []; symmetry; apply app_nil_r].

Lemma print_grows (line : string) : grows (print (raster := raster) line).
Proof. log_grows. Qed.

Lemma pipe_grows (description : string) : grows (pipe E description).
Proof.
  intros w. unfold pipe.
  destruct (pipe_global E) as [run|]; [|apply grown_refl].
  destruct (run (length (prompts w)) description) as [im|e]; revert w; log_grows.
Qed.

Lemma Image_save_grows (l : loc) (path : string) : grows (Image_save E l path).
Proof.
  unfold Image_save. apply grows_bind.
  - intros w. unfold deref. destruct (heap w !! l); apply grown_refl.
  - intros im. destruct (save_outcome E path); [apply grows_raise | log_grows].
Qed.

Lemma display_grows (path : string) : grows (display E path).
Proof.
  unfold display. destruct (display_outcome E path); [apply grows_raise | log_grows].
Qed.

Lemma generate_and_save_image_grows (description file_name : string) :
  grows (generate_and_save_image E description file_name).
Proof.
  unfold generate_and_save_image.
  destruct (truthy description); cbn [negb].
  2: { apply grows_bind; [apply print_grows | intros _; apply grows_ret]. }
  apply grows_try_except; [|intros e; apply print_grows].
  apply grows_bind; [apply print_grows | intros _].
  apply grows_bind; [apply pipe_grows | intros image].
  apply grows_bind; [apply add_text_overlay_grows | intros image_with_text].
  apply grows_bind; [apply Image_save_grows | intros _].
  apply grows_bind; [apply print_grows | intros _].
  apply grows_bind; [apply display_grows | intros _].
  apply grows_bind; [apply print_grows | intros _].
  apply grows_ret.
Qed.

Ltac prompts_prim :=
  let w := fresh "w" in
  intros w;
  unfold Image_save, display, print, deref, bind, ret, raise;
  repeat match goal with
         | |- context [match ?x with _ => _ end] =>
             match x with
             | context [match _ with _ => _ end] => fail 1
             | _ => destruct x
             end
         end;
  reflexivity.

Lemma add_text_overlay_keeps_prompts (img : loc) (text : string) :
  keeps prompts (add_text_overlay E img text).
Proof.
  intros w. pose proof (add_text_overlay_keeps_outside E img text w) as Hkeep.
  unfold outside_overlay in Hkeep. injection Hkeep as Hp _ _. exact Hp.
Qed.

(** Once the pipeline has been asked, no statement of the [try] block
    asks it again. *)
Lemma after_generation_keeps_prompts (description file_name : string) (image : loc) :
  keeps prompts
    (image_with_text <- add_text_overlay E image description ;;
     let drive_path := os_path_join "/content/drive/My Drive" file_name in
     Image_save E image_with_text drive_path ;;;
     print ("Image saved to Google Drive as " +:+ drive_path) ;;;
     display E drive_path ;;;
     print ("Description: " +:+ description) ;;;
     ret tt).
Proof.
  apply keeps_bind; [apply add_text_overlay_keeps_prompts | intros image_with_text].
  apply keeps_bind; [prompts_prim | intros _].
  apply keeps_bind; [prompts_prim | intros _].
  apply keeps_bind; [prompts_prim | intros _].
  apply keeps_bind; [prompts_prim | intros _].
  apply keeps_ret.
Qed.

Lemma prompts_of_run (w : world raster) (description file_name : string) :
  prompts (snd (generate_and_save_image E description file_name w)) =
  prompts w ++ (if truthy description then asked E description else []).
Proof.
  unfold generate_and_save_image, asked.
  destruct (truthy description); cbn [negb]; [|symmetry; apply app_nil_r].
  set (rest := fun image : loc => bind (add_text_overlay E image description) _).
  assert (Hrest : forall image, keeps prompts (rest image)).
  { intros image. apply after_generation_keeps_prompts. }
  unfold try_except, bind at 1, print at 1, bind at 1, pipe. cbn [heap prompts].
  destruct (pipe_global E) as [run|]; cbn [is_Exception].
  2: { unfold print. cbn [snd prompts]. symmetry. apply app_nil_r. }
  destruct (run _ description) as [im|e]; cbn [is_Exception].
  - unfold allocate.
    match goal with
    | |- context [rest ?l ?w1] =>
        pose proof (Hrest l w1) as Hkeep; destruct (rest l w1) as [[u|e] w2]
    end; cbn [snd is_Exception] in *; [exact Hkeep|].
    unfold print. cbn [snd prompts]. exact Hkeep.
  - reflexivity.
Qed.

End PipelineFrames.

(** X11.  When the global [pipe] holds a pipeline, a run with a non-empty
    description hands it exactly one prompt, the description itself,
    whatever fails afterwards.  A run with an empty description hands over
    none, and neither does a run made while [pipe] is [None]: there the
    call raises before any pipeline receives anything. *)
Theorem pipeline_asked_once {raster : Type} (E : environment raster)
    (w : world raster) (description file_name : string) :
  (description <> "" -> is_Some (pipe_global E) ->
   prompts (snd (generate_and_save_image E description file_name w)) =
   prompts w ++ [description]) /\
  (description = "" \/ pipe_global E = None ->
   prompts (snd (generate_and_save_image E description file_name w)) = prompts w).
Proof.
  rewrite prompts_of_run. unfold asked. split.
  - intros Hd [run Hrun]. rewrite (truthy_nonempty _ Hd), Hrun. reflexivity.
  - intros [-> | Hnone]; [apply app_nil_r|].
    rewrite Hnone. destruct (truthy description); apply app_nil_r.
Qed.

Lemma pipeline_asked_once_witness :
  prompts (snd (generate_and_save_image Sample.fontless "a red bicycle" "bike"
                  Sample.empty_world)) =
  prompts Sample.empty_world ++ ["a red bicycle"].
Proof.
  apply (proj1 (pipeline_asked_once Sample.fontless Sample.empty_world
                  "a red bicycle" "bike")).
  - discriminate.
  - eexists. reflexivity.
Defined.

(** X12.  Whatever a run of [generate_and_save_image] does, it only adds:
    every image object that was live keeps its mode, size and pixels, and
    the prompts, the printed lines, the [ImageDraw] calls, the files written
    and the paths displayed before the run are the beginning of what they
    are after it. *)
Theorem run_only_adds {raster : Type} (E : environment raster)
    (w : world raster) (description file_name : string) :
  let w' := snd (generate_and_save_image E description file_name w) in
  (forall l im, heap w !! l = Some im -> heap w' !! l = Some im) /\
  (exists more, prompts w' = prompts w ++ more) /\
  (exists more, stdout w' = stdout w ++ more) /\
  (exists more, drawn w' = drawn w ++ more) /\
  (exists more, saved w' = saved w ++ more) /\
  (exists more, shown w' = shown w ++ more).
Proof. exact (generate_and_save_image_grows E description file_name w). Qed.

Lemma run_only_adds_witness :
  heap (snd (generate_and_save_image Sample.healthy "by the sea" "sea" Sample.studio))
    !! 0%nat = Some Sample.generated.
Proof.
  apply (proj1 (run_only_adds Sample.healthy Sample.studio "by the sea" "sea")).
  reflexivity.
Defined.

(** X13.  Typing the extension or leaving it out makes no difference: for
    a file name that does not end in [.png], the run with the name followed
    by [.png] is the run with the name. *)
Theorem extension_is_optional {raster : Type} (E : environment raster)
    (w : world raster) (description file_name : string) :
  endswith file_name ".png" = false ->
  generate_and_save_image E description (file_name +:+ ".png") w =
  generate_and_save_image E description file_name w.
Proof.
  intros Hext. unfold generate_and_save_image.
  rewrite Hext, (endswith_app file_name ".png" ".png" (endswith_refl _)).
  reflexivity.
Qed.

Lemma extension_is_optional_witness :
  generate_and_save_image Sample.healthy "a red bicycle" ("bike" +:+ ".png")
    Sample.empty_world =
  generate_and_save_image Sample.healthy "a red bicycle" "bike" Sample.empty_world.
Proof.
  apply (extension_is_optional Sample.healthy Sample.empty_world "a red bicycle" "bike").
  reflexivity.
Defined.

(** X14.  In every run, whatever succeeds or fails, at most one file is
    written, and a file that is written has the joined path, which ends in
    [.png]. *)
Theorem at_most_one_png {raster : Type} (E : environment raster)
    (w : world raster) (description file_name : string) :
  let w' := snd (generate_and_save_image E description file_name w) in
  saved w' = saved w \/
  exists painted,
    saved w' = saved w ++ [(os_path_join drive_root (with_png file_name), painted)] /\
    endswith (os_path_join drive_root (with_png file_name)) ".png" = true.
Proof.
  intros w'. unfold w'. clear w'.
  destruct (string_dec description "") as [->|Hd].
  { left. reflexivity. }
  destruct (pipe_outcome E (length (prompts w)) description) as [im|e0] eqn:Hpipe.
  2: { left. rewrite (generation_fails_run E w description file_name e0 Hd Hpipe).
       reflexivity. }
  assert (Hfails : forall e,
             fst (add_text_overlay E (new_loc w) description
                    (generated_in w description im)) = Raised e ->
             saved (snd (generate_and_save_image E description file_name w)) = saved w).
  { intros e He.
    destruct (overlay_fails_run E w description file_name im e Hd Hpipe He)
      as (w' & out & Hrun & _ & _ & Hsaved & _).
    rewrite Hrun. exact Hsaved. }
  pose proof (overlay_in_run_outcome E w description im) as Hoverlay.
  destruct (convert_outcome E (im_mode im) "RGBA") as [ec|] eqn:Hconv.
  { left. exact (Hfails ec Hoverlay). }
  destruct (fst (resolve_font E w)) as [f|e1] eqn:Hfont.
  2: { left. exact (Hfails e1 Hoverlay). }
  destruct (textbbox E (0, 0) description f) as [[[[b0 b1] b2] b3]|eb] eqn:Hbbox.
  2: { left. exact (Hfails eb Hoverlay). }
  clear Hfails Hoverlay.
  destruct (save_outcome E (os_path_join drive_root (with_png file_name)))
    as [e2|] eqn:Hsave.
  - left.
    destruct (save_fails_run E w description file_name im f b0 b1 b2 b3 e2
                Hd Hpipe Hconv Hfont Hbbox Hsave)
      as (w' & out & Hrun & _ & Hsaved & _).
    rewrite Hrun. exact Hsaved.
  - right.
    destruct (saved_run E w description file_name im f b0 b1 b2 b3
                Hd Hpipe Hconv Hfont Hbbox Hsave)
      as (w' & out & painted & Hrun & Hsaved & _).
    exists painted. rewrite Hrun. split; [exact Hsaved|].
    apply join_endswith, with_png_endswith.
Qed.

(** X10.  When the file has been written (generation, conversion, font,
    measurement and save all succeeded) and [display] then raises, the
    file stays written and nothing is displayed; the run still returns, and
    its last two lines are the confirmation of the save followed by the
    message [Error during image generation]. *)
Theorem display_failure_keeps_file {raster : Type} (E : environment raster)
    (w : world raster) (description file_name : string)
    (im : image raster) (f : font) (bbox0 bbox1 bbox2 bbox3 : Z) (e : exn) :
  description <> "" ->
  pipe_outcome E (length (prompts w)) description = Returned im ->
  convert_outcome E (im_mode im) "RGBA" = None ->
  fst (resolve_font E w) = Returned f ->
  textbbox E (0, 0) description f = Returned (bbox0, bbox1, bbox2, bbox3) ->
  let drive_path := os_path_join drive_root (with_png file_name) in
  save_outcome E drive_path = None ->
  display_outcome E drive_path = Some e ->
  exists w' painted before,
    generate_and_save_image E description file_name w = (Returned tt, w') /\
    saved w' = saved w ++ [(drive_path, painted)] /\
    shown w' = shown w /\
    stdout w' = before ++ ["Image saved to Google Drive as " +:+ drive_path;
                           "Error during image generation: " +:+ exn_str e].
Proof.
  intros Hd Hpipe Hconv Hfont Hbbox drive_path Hsave Hdisplay.
  destruct (saved_run E w description file_name im f bbox0 bbox1 bbox2 bbox3
              Hd Hpipe Hconv Hfont Hbbox Hsave)
    as (w' & out & painted & Hrun & Hsaved & _ & _ & Hshown & Hout).
  fold drive_path in Hsaved, Hshown, Hout. rewrite Hdisplay in Hshown, Hout.
  exists w', painted, (stdout w ++ ["Generating image, please wait..."] ++ out).
  split; [exact Hrun|]. split; [exact Hsaved|].
  split; [rewrite Hshown; apply app_nil_r|].
  rewrite Hout, <- !app_assoc. reflexivity.
Qed.

(** An environment in which only [display] fails. *)
Lemma display_failure_keeps_file_witness :
  exists w' painted before,
    generate_and_save_image
      (Environment Sample.pil_conversions (convert_pixels Sample.healthy)
         (paint_rectangle Sample.healthy) (paint_text Sample.healthy)
         (textbbox Sample.healthy) (fun _ => None) (fun _ _ => None)
         (pipe_global Sample.healthy) (fun _ => None)
         (fun _ => Some (IOError "cannot identify image file")))
      "a red bicycle" "bike" Sample.empty_world = (Returned tt, w') /\
    saved w' = saved Sample.empty_world ++
               [(os_path_join drive_root (with_png "bike"), painted)] /\
    shown w' = shown Sample.empty_world /\
    stdout w' = before ++
                ["Image saved to Google Drive as " +:+ os_path_join drive_root (with_png "bike");
                 "Error during image generation: " +:+
                 exn_str (IOError "cannot identify image file")].
Proof.
  apply (display_failure_keeps_file _ Sample.empty_world "a red bicycle" "bike"
           Sample.generated DefaultFont 0 0 78 11 (IOError "cannot identify image file"));
    [discriminate | reflexivity ..].
Defined.

(** X9.  When nothing fails, the file written holds the generated image,
    converted to RGBA, with the description itself as caption, plate below
    text, at the geometry of the overlay; its path is the one displayed;
    the generated image itself stays in memory as the pipeline made it; and
    the last line printed repeats the description. *)
Theorem saved_file_is_captioned_generation {raster : Type} (E : environment raster)
    (w : world raster) (description file_name : string) (im : image raster) (f : font)
    (iw ih bbox0 bbox1 bbox2 bbox3 : Z) :
  description <> "" ->
  pipe_outcome E (length (prompts w)) description = Returned im ->
  convert_outcome E (im_mode im) "RGBA" = None ->
  im_size im = (iw, ih) ->
  fst (resolve_font E w) = Returned f ->
  textbbox E (0, 0) description f = Returned (bbox0, bbox1, bbox2, bbox3) ->
  let drive_path := os_path_join drive_root (with_png file_name) in
  save_outcome E drive_path = None ->
  display_outcome E drive_path = None ->
  let text_width := bbox2 - bbox0 in
  let text_height := bbox3 - bbox1 in
  let x := (inject_Z (iw - text_width) / 2)%Q in
  let y := ih - text_height - 10 in
  let plate : box :=
    (((x - 10)%Q, y - 10), ((x + inject_Z text_width + 10)%Q, y + text_height + 10)) in
  exists w',
    generate_and_save_image E description file_name w = (Returned tt, w') /\
    saved w' =
      saved w ++
      [(drive_path,
        Image "RGBA" (iw, ih)
          (paint_text E
             (paint_rectangle E (convert_pixels E (im_mode im) "RGBA" (im_pixels im))
                plate (Tuple 0 0 0 128))
             (x, y) description f (Named "white")))] /\
    shown w' = shown w ++ [drive_path] /\
    heap w' !! new_loc w = Some im /\
    last (stdout w') = Some ("Description: " +:+ description).
Proof.
  intros Hd Hpipe Hconv Hsize Hfont Hbbox drive_path Hsave Hdisplay
         text_width text_height x y plate.
  destruct (overlay_returns E (generated_in w description im) (new_loc w) description
              im f iw ih bbox0 bbox1 bbox2 bbox3 (generated_live _ _ _) Hconv Hsize
              (eq_trans (generated_font E _ _ _) Hfont) Hbbox) as (k & out & Hrun).
  unfold generate_and_save_image.
  rewrite (truthy_nonempty _ Hd). cbn [negb].
  fold (with_png file_name). fold drive_root. fold drive_path.
  unfold try_except.
  rewrite bind_print.
  rewrite (bind_returned _ _ _ _ _ (pipe_returns E _ _ _ Hpipe)).
  rewrite (bind_returned _ _ _ _ _ Hrun).
  unfold Image_save, deref, bind at 1, bind at 1. cbn [heap].
  rewrite lookup_insert_eq, Hsave.
  rewrite bind_print. unfold display, bind at 1. rewrite Hdisplay.
  rewrite bind_print. unfold ret.
  eexists. split; [reflexivity|].
  unfold print, generated_in.
  cbn [snd heap default_calls prompts stdout drawn saved shown].
  split; [reflexivity|]. split; [reflexivity|].
  split.
  - rewrite lookup_insert_ne.
    + apply lookup_insert_eq.
    + apply (new_loc_neq (generated_in w description im) (new_loc w) im).
      apply generated_live.
  - apply last_snoc.
Qed.

Lemma saved_file_is_captioned_generation_witness :
  exists w',
    generate_and_save_image Sample.healthy "a red bicycle" "bike" Sample.empty_world =
    (Returned tt, w') /\
    saved w' =
      [("/content/drive/My Drive/bike.png",
        Image "RGBA" (512, 512)
          [Sample.Converted "RGB" "RGBA";
           Sample.Filled
             (((inject_Z (512 - (78 - 0)) / 2 - 10)%Q, 512 - (11 - 0) - 10 - 10),
              ((inject_Z (512 - (78 - 0)) / 2 + inject_Z (78 - 0) + 10)%Q,
               512 - (11 - 0) - 10 + (11 - 0) + 10))
             (Tuple 0 0 0 128);
           Sample.Lettered ((inject_Z (512 - (78 - 0)) / 2)%Q, 512 - (11 - 0) - 10)
             "a red bicycle" DefaultFont (Named "white")])] /\
    shown w' = ["/content/drive/My Drive/bike.png"] /\
    heap w' !! new_loc Sample.empty_world = Some Sample.generated /\
    last (stdout w') = Some "Description: a red bicycle".
Proof.
  apply (saved_file_is_captioned_generation Sample.healthy Sample.empty_world
           "a red bicycle" "bike" Sample.generated DefaultFont 512 512 0 0 78 11);
    [discriminate | reflexivity ..].
Defined.

(** ** Loading the model, the token, the start-up *)

(** The one way a call of [load_model] can go. *)
Lemma load_model_run {raster pipeline : Type} (L : services pipeline)
    (model_id : string) (nb : notebook raster) :
  exists r,
    load_model L model_id nb = (Returned r, nb) /\
    forall p,
      r = Some p <->
      exists loaded,
        snd (from_pretrained_result L model_id "float16") = Returned loaded /\
        snd (to_result L loaded "cuda") = Returned p.
Proof.
  destruct nb as [[h dc pr so dr sa sh] m rd].
  unfold load_model, suppress_output, try_exceptN, bindN, from_pretrained, pipe_to,
    chatter, in_kernel, print, retN.
  destruct (from_pretrained_result L model_id "float16") as [lines1 [loaded|e1]];
    cbn.
  - destruct (to_result L loaded "cuda") as [lines2 [p|e2]] eqn:Hmoved; cbn.
    + eexists. split; [reflexivity|]. intros p'. split.
      * intros [= <-]. exists loaded. rewrite Hmoved. auto.
      * intros (loaded' & [= <-] & Hp). rewrite Hmoved in Hp.
        injection Hp as ->. reflexivity.
    + eexists. split; [reflexivity|]. intros p'. split; [discriminate|].
      intros (loaded' & [= <-] & Hno). rewrite Hmoved in Hno. discriminate.
  - eexists. split; [reflexivity|]. intros p'. split; [discriminate|].
    intros (loaded' & Hno & _). discriminate.
Qed.

(** X15.  [load_model] never raises and leaves the session exactly as it
    found it: the lines the libraries write and its own message
    [Failed to load the model] are all lost to the null device.  It returns
    the pipeline moved to ["cuda"] when loading and moving both succeed, and
    [None] in every other case. *)
Theorem load_model_is_silent {raster pipeline : Type} (L : services pipeline)
    (model_id : string) (nb : notebook raster) :
  exists r,
    load_model L model_id nb = (Returned r, nb) /\
    forall p,
      r = Some p <->
      exists loaded,
        snd (from_pretrained_result L model_id "float16") = Returned loaded /\
        snd (to_result L loaded "cuda") = Returned p.
Proof. exact (load_model_run L model_id nb). Qed.

(** X16.  When the model could not be loaded, the global [pipe] is [None]
    and every later run with a non-empty description fails in the same
    way: calling [pipe] raises [TypeError] before any pipeline receives the
    prompt, the exception is caught, and the run prints the waiting line
    and the error line and does nothing else: no prompt is handed over, no
    image is made, nothing is drawn, saved or displayed. *)
Theorem unloaded_model_fails_every_run {raster pipeline : Type} (L : services pipeline)
    (E : environment raster) (run : pipeline -> nat -> string -> outcome (image raster))
    (model_id : string) (nb : notebook raster) (pipe : option pipeline)
    (w : world raster) (description file_name : string) :
  fst (load_model L model_id nb) = Returned pipe ->
  (forall loaded,
      snd (from_pretrained_result L model_id "float16") = Returned loaded ->
      exists e, snd (to_result L loaded "cuda") = Raised e) ->
  description <> "" ->
  generate_and_save_image (with_pipe E pipe run) description file_name w =
  (Returned tt,
   World (heap w) (default_calls w) (prompts w)
         (stdout w ++ ["Generating image, please wait...";
                       "Error during image generation: 'NoneType' object is not callable"])
         (drawn w) (saved w) (shown w)).
Proof.
  intros Hload Hfails Hd.
  destruct (load_model_run L model_id nb) as (r & Hrun & Hsome).
  rewrite Hrun in Hload. injection Hload as ->.
  destruct pipe as [p|].
  { destruct (proj1 (Hsome p) eq_refl) as (loaded & Hloaded & Hmoved).
    destruct (Hfails loaded Hloaded) as [e He]. congruence. }
  rewrite (generation_fails_run (with_pipe E None run) w description file_name
             none_not_callable Hd eq_refl).
  unfold asked. cbn [with_pipe pipe_global fmap option_fmap option_map].
  rewrite app_nil_r. reflexivity.
Qed.

Lemma unloaded_model_fails_every_run_witness :
  generate_and_save_image (with_pipe Sample.healthy None SampleSetup.run)
    "a red bicycle" "bike" Sample.empty_world =
  (Returned tt,
   World (heap Sample.empty_world) (default_calls Sample.empty_world)
         (prompts Sample.empty_world)
         (stdout Sample.empty_world ++
          ["Generating image, please wait...";
           "Error during image generation: 'NoneType' object is not callable"])
         (drawn Sample.empty_world) (saved Sample.empty_world) (shown Sample.empty_world)).
Proof.
  apply (unloaded_model_fails_every_run SampleSetup.offline Sample.healthy SampleSetup.run
           "runwayml/stable-diffusion-v1-5" SampleSetup.fresh_notebook None).
  - reflexivity.
  - intros loaded Hloaded. discriminate Hloaded.
  - discriminate.
Defined.

(** X17.  [login_silently] returns without raising.  It prints its warning
    exactly when [HUGGINGFACE_TOKEN] is unset or set to the empty string;
    with any non-empty token it leaves the session as it found it.  In
    neither case does it do anything with the token. *)
Theorem login_warns_iff {raster pipeline : Type} (L : services pipeline)
    (nb : notebook raster) :
  exists nb',
    login_silently L nb = (Returned tt, nb') /\
    ((exists token, environ L !! "HUGGINGFACE_TOKEN" = Some token /\ token <> "") ->
     nb' = nb) /\
    (environ L !! "HUGGINGFACE_TOKEN" = None \/
     environ L !! "HUGGINGFACE_TOKEN" = Some "" ->
     stdout (kernel nb') =
       stdout (kernel nb) ++
       ["Hugging Face token not found. Please ensure the token is set in the environment."] /\
     heap (kernel nb') = heap (kernel nb) /\
     mounted nb' = mounted nb /\ rendered nb' = rendered nb).
Proof.
  unfold login_silently, os_getenv.
  destruct (environ L !! "HUGGINGFACE_TOKEN") as [[|c token]|] eqn:Htoken; cbn.
  - eexists. split; [reflexivity|]. split; [|auto].
    intros (t & [= <-] & Hne). congruence.
  - eexists. split; [reflexivity|]. split; [reflexivity|].
    intros [Hno | Hno]; discriminate.
  - eexists. split; [reflexivity|]. split; [|auto].
    intros (t & Hno & _). discriminate.
Qed.

Lemma login_warns_iff_witness :
  exists nb',
    login_silently SampleSetup.offline SampleSetup.fresh_notebook = (Returned tt, nb') /\
    stdout (kernel nb') =
      ["Hugging Face token not found. Please ensure the token is set in the environment."].
Proof.
  destruct (login_warns_iff SampleSetup.offline SampleSetup.fresh_notebook)
    as (nb' & Hrun & _ & Hwarn).
  exists nb'. split; [exact Hrun|].
  apply Hwarn. left. reflexivity.
Defined.

Lemma mount_drive_run {raster pipeline : Type} (L : services pipeline)
    (nb : notebook raster) :
  mount_drive L nb =
  match snd (mount_result L "/content/drive" true) with
  | None =>
      (Returned tt, Notebook (kernel nb) ({["/content/drive"]} ∪ mounted nb) (rendered nb))
  | Some e => (Raised e, nb)
  end.
Proof.
  destruct nb as [[h dc pr so dr sa sh] m rd].
  unfold mount_drive, suppress_output, drive_mount, bindN, chatter, outcome_of.
  destruct (mount_result L "/content/drive" true) as [lines [e|]]; reflexivity.
Qed.

Lemma login_silently_run {raster pipeline : Type} (L : services pipeline)
    (nb : notebook raster) :
  login_silently L nb =
  (Returned tt,
   Notebook (World (heap (kernel nb)) (default_calls (kernel nb)) (prompts (kernel nb))
                   (stdout (kernel nb) ++
                    if truthy_opt (environ L !! "HUGGINGFACE_TOKEN") then []
                    else ["Hugging Face token not found. Please ensure the token is set in the environment."])
                   (drawn (kernel nb)) (saved (kernel nb)) (shown (kernel nb)))
            (mounted nb) (rendered nb)).
Proof.
  destruct nb as [[h dc pr so dr sa sh] m rd].
  unfold login_silently, os_getenv.
  destruct (truthy_opt (environ L !! "HUGGINGFACE_TOKEN")); cbn;
    rewrite ?app_nil_r; reflexivity.
Qed.

(** X18.  The start-up of the module.  When the drive cannot be mounted
    the start-up stops there, with the exception of [drive.mount]: nothing
    is mounted and the form is not rendered.  When the drive mounts, the
    start-up runs to its end whether or not the model loads: the form is
    rendered, and the global [pipe] is the loaded pipeline or [None].  In
    both cases the only line that can have been printed is the token
    warning. *)
Theorem startup_outcomes {raster pipeline : Type} (L : services pipeline)
    (html_code : string) (nb : notebook raster) :
  let warning :=
    if truthy_opt (environ L !! "HUGGINGFACE_TOKEN") then []
    else ["Hugging Face token not found. Please ensure the token is set in the environment."] in
  (forall e,
      snd (mount_result L "/content/drive" true) = Some e ->
      exists nb',
        startup L html_code nb = (Raised e, nb') /\
        mounted nb' = mounted nb /\ rendered nb' = rendered nb /\
        stdout (kernel nb') = stdout (kernel nb) ++ warning) /\
  (snd (mount_result L "/content/drive" true) = None ->
   exists pipe nb',
     startup L html_code nb = (Returned pipe, nb') /\
     (forall p,
         pipe = Some p <->
         exists loaded,
           snd (from_pretrained_result L "runwayml/stable-diffusion-v1-5" "float16") =
             Returned loaded /\
           snd (to_result L loaded "cuda") = Returned p) /\
     mounted nb' = {["/content/drive"]} ∪ mounted nb /\
     rendered nb' = rendered nb ++ [html_code] /\
     stdout (kernel nb') = stdout (kernel nb) ++ warning).
Proof.
  intros warning. unfold startup, bindN.
  rewrite login_silently_run, mount_drive_run. fold warning.
  split.
  - intros e He. rewrite He. eexists. split; [reflexivity|]. auto.
  - intros Hmount. rewrite Hmount.
    match goal with
    | |- context [load_model L ?id ?nb1] =>
        destruct (load_model_run L id nb1) as (r & Hrun & Hsome); rewrite Hrun
    end.
    unfold display_HTML, retN.
    eexists _, _. split; [reflexivity|]. split; [exact Hsome|]. auto.
Qed.

Lemma startup_outcomes_witness :
  exists nb',
    startup SampleSetup.driveless "<form></form>" SampleSetup.fresh_notebook =
    (Raised (OtherException "ValueError" "mount failed"), nb') /\
    mounted nb' = mounted SampleSetup.fresh_notebook /\
    rendered nb' = rendered SampleSetup.fresh_notebook /\
    stdout (kernel nb') = stdout (kernel SampleSetup.fresh_notebook) ++ [].
Proof.
  apply (proj1 (startup_outcomes SampleSetup.driveless "<form></form>"
                  SampleSetup.fresh_notebook)).
  reflexivity.
Defined.

(** ** The form and the function behind it *)

Lemma waiting_line_first {raster : Type} (E : environment raster)
    (w : world raster) (description file_name : string) :
  description <> "" ->
  exists more,
    stdout (snd (generate_and_save_image E description file_name w)) =
    stdout w ++ "Generating image, please wait..." :: more.
Proof.
  intros Hd.
  destruct (pipe_outcome E (length (prompts w)) description) as [im|e0] eqn:Hpipe.
  2: { rewrite (generation_fails_run E w description file_name e0 Hd Hpipe).
       eexists. reflexivity. }
  assert (Hfails : forall e,
             fst (add_text_overlay E (new_loc w) description
                    (generated_in w description im)) = Raised e ->
             exists more,
               stdout (snd (generate_and_save_image E description file_name w)) =
               stdout w ++ "Generating image, please wait..." :: more).
  { intros e He.
    destruct (overlay_fails_run E w description file_name im e Hd Hpipe He)
      as (w' & out & Hrun & Hout & _).
    rewrite Hrun. cbn [snd]. rewrite Hout. eexists. reflexivity. }
  pose proof (overlay_in_run_outcome E w description im) as Hoverlay.
  destruct (convert_outcome E (im_mode im) "RGBA") as [ec|] eqn:Hconv.
  { exact (Hfails ec Hoverlay). }
  destruct (fst (resolve_font E w)) as [f|e1] eqn:Hfont.
  2: { exact (Hfails e1 Hoverlay). }
  destruct (textbbox E (0, 0) description f) as [[[[b0 b1] b2] b3]|eb] eqn:Hbbox.
  2: { exact (Hfails eb Hoverlay). }
  clear Hfails Hoverlay.
  destruct (save_outcome E (os_path_join drive_root (with_png file_name)))
    as [e2|] eqn:Hsave.
  - destruct (save_fails_run E w description file_name im f b0 b1 b2 b3 e2
                Hd Hpipe Hconv Hfont Hbbox Hsave)
      as (w' & out & Hrun & Hout & _).
    rewrite Hrun. cbn [snd]. rewrite Hout. eexists. reflexivity.
  - destruct (saved_run E w description file_name im f b0 b1 b2 b3
                Hd Hpipe Hconv Hfont Hbbox Hsave)
      as (w' & out & painted & Hrun & _ & _ & _ & _ & Hout).
    rewrite Hrun. cbn [snd]. rewrite Hout. eexists. reflexivity.
Qed.

Lemma truthy_true_nonempty (s : string) : truthy s = true -> s <> "".
Proof. destruct s; [discriminate | congruence]. Qed.

(** X19.  The script of the form alerts, and calls nothing, exactly when
    one of the two fields is empty.  When it does call, it calls
    [notebook.generate_and_save_image] with the description first and the
    file name second, both non-empty, so the run it starts is never stopped
    by the guard on the description: it prints the waiting line first and
    goes on to call the global [pipe], which hands the description to the
    pipeline when one is loaded and hands nothing over when [pipe] is
    [None]. *)
Theorem form_guards_both_fields {raster : Type} (E : environment raster)
    (w : world raster) (description filename : string) :
  (generateImage description filename = Alert "Please fill in both fields." <->
   description = "" \/ filename = "") /\
  (forall name args,
      generateImage description filename = InvokeFunction name args ->
      name = "notebook.generate_and_save_image" /\
      args = [description; filename] /\
      description <> "" /\ filename <> "" /\
      prompts (snd (generate_and_save_image E description filename w)) =
        prompts w ++ match pipe_global E with
                     | Some _ => [description]
                     | None => []
                     end /\
      exists more,
        stdout (snd (generate_and_save_image E description filename w)) =
        stdout w ++ "Generating image, please wait..." :: more).
Proof.
  unfold generateImage.
  destruct (truthy description) eqn:Hd; destruct (truthy filename) eqn:Hf; cbn [negb orb].
  - split.
    + split; [discriminate|].
      intros [-> | ->]; discriminate.
    + intros name args [= <- <-].
      pose proof (truthy_true_nonempty _ Hd) as Hd'.
      pose proof (truthy_true_nonempty _ Hf) as Hf'.
      repeat (split; [first [reflexivity | assumption]|]).
      split; [rewrite prompts_of_run, Hd; reflexivity|].
      apply waiting_line_first, Hd'.
  - split; [|discriminate].
    split; [intros _|reflexivity]. right. destruct filename; [reflexivity | discriminate].
  - split; [|discriminate].
    split; [intros _|reflexivity]. left. destruct description; [reflexivity | discriminate].
  - split; [|discriminate].
    split; [intros _|reflexivity]. left. destruct description; [reflexivity | discriminate].
Qed.

Lemma form_guards_both_fields_witness :
  prompts (snd (generate_and_save_image Sample.healthy "a red bicycle" "bike"
                  Sample.empty_world)) =
  prompts Sample.empty_world ++ ["a red bicycle"].
Proof.
  apply (proj2 (form_guards_both_fields Sample.healthy Sample.empty_world
                  "a red bicycle" "bike")
           "notebook.generate_and_save_image" ["a red bicycle"; "bike"]).
  reflexivity.
Defined.

(** ** More on the overlay *)

(** X1.  On a live image [add_text_overlay] raises [e] in exactly these
    situations.  [convert] raises [e].  Or the copy is made and the font
    block raises [e], which it does in three ways: [load_default] raises [e]
    and [e] is not an [IOError]; [load_default] raises an [IOError] and
    [truetype] raises [e], not an [IOError]; both raise an [IOError] and the
    second call of [load_default] raises [e], of whatever class.  Or the
    copy is made, the font block yields a font, and measuring the caption
    with it raises [e]. *)
Theorem overlay_raises_iff {raster : Type} (E : environment raster)
    (w : world raster) (img : loc) (caption : string) (im : image raster) (e : exn) :
  heap w !! img = Some im ->
  (fst (add_text_overlay E img caption w) = Raised e <->
   convert_outcome E (im_mode im) "RGBA" = Some e \/
   (convert_outcome E (im_mode im) "RGBA" = None /\
    ((exists e1, load_default_outcome E (default_calls w) = Some e1 /\
        ((is_IOError e1 = false /\ e = e1) \/
         (is_IOError e1 = true /\
          exists e2, truetype_outcome E dejavu 30 = Some e2 /\
            ((is_IOError e2 = false /\ e = e2) \/
             (is_IOError e2 = true /\
              load_default_outcome E (S (default_calls w)) = Some e))))) \/
     (exists f, fst (resolve_font E w) = Returned f /\
                textbbox E (0, 0) caption f = Raised e)))).
Proof.
  intros Hlive. rewrite <- resolve_font_raises_iff.
  rewrite (overlay_outcome E w img caption im Hlive).
  destruct (convert_outcome E (im_mode im) "RGBA") as [e0|] eqn:Hconv.
  { split.
    - intros [= ->]. left. reflexivity.
    - intros [[= ->] | [Hno _]]; [reflexivity | discriminate]. }
  destruct (fst (resolve_font E w)) as [f|e1] eqn:Hfont.
  2: { split.
       - intros [= ->]. right. split; [reflexivity|]. left. reflexivity.
       - intros [Hno | [_ [[= ->] | (f & Hno & _)]]];
           [discriminate | reflexivity | discriminate]. }
  destruct (textbbox E (0, 0) caption f) as [bbox|e2] eqn:Hbbox.
  - split; [discriminate|].
    intros [Hno | [_ [Hno | (f' & [= <-] & Hno)]]]; try discriminate.
    rewrite Hbbox in Hno. discriminate.
  - split.
    + intros [= ->]. right. split; [reflexivity|]. right. exists f. auto.
    + intros [Hno | [_ [Hno | (f' & [= <-] & Hraise)]]]; try discriminate.
      rewrite Hbbox in Hraise. injection Hraise as ->. reflexivity.
Qed.

Lemma overlay_raises_iff_witness :
  fst (add_text_overlay Sample.fontless 0%nat "a red bicycle" Sample.studio) =
  Raised (IOError "cannot open resource").
Proof.
  apply (proj2 (overlay_raises_iff Sample.fontless Sample.studio 0%nat "a red bicycle"
                  Sample.generated (IOError "cannot open resource") eq_refl)).
  right. split; [reflexivity|]. left.
  exists (IOError "cannot open resource"). split; [reflexivity|].
  right. split; [reflexivity|].
  exists (IOError "cannot open resource"). split; [reflexivity|].
  right. split; reflexivity.
Defined.

(** X20.  An empty caption is not refused.  With a font that measures the
    empty string as the empty box, the call still draws: a plate 20 pixels
    wide and 20 high, centred on the vertical centre line and standing on
    the bottom edge of the image, and then the empty text at its middle. *)
Theorem empty_caption_still_drawn {raster : Type} (E : environment raster)
    (w : world raster) (img : loc) (im : image raster) (f : font) (iw ih : Z) :
  heap w !! img = Some im ->
  convert_outcome E (im_mode im) "RGBA" = None ->
  im_size im = (iw, ih) ->
  fst (resolve_font E w) = Returned f ->
  textbbox E (0, 0) "" f = Returned (0, 0, 0, 0) ->
  exists out w' x x1 x2,
    add_text_overlay E img "" w = (Returned out, w') /\
    drawn w' = drawn w ++ [Rectangle out ((x1, ih - 20), (x2, ih)) (Tuple 0 0 0 128);
                           Text out (x, ih - 10) "" f (Named "white")] /\
    (x == inject_Z iw / 2)%Q /\
    (x1 == inject_Z iw / 2 - 10)%Q /\
    (x2 == inject_Z iw / 2 + 10)%Q.
Proof.
  intros Hlive Hconv Hsize Hfont Hbbox.
  destruct (overlay_returns E w img "" im f iw ih 0 0 0 0
              Hlive Hconv Hsize Hfont Hbbox) as (k & out & Hrun).
  eexists _, _, _, _, _. split; [exact Hrun|].
  cbn [drawn].
  replace (ih - (0 - 0) - 10 - 10) with (ih - 20) by lia.
  replace (ih - (0 - 0) - 10 + (0 - 0) + 10) with ih by lia.
  replace (ih - (0 - 0) - 10) with (ih - 10) by lia.
  split; [reflexivity|].
  change (0 - 0) with 0. rewrite Z.sub_0_r.
  change (inject_Z 0) with 0%Q.
  split; [reflexivity|]. split; ring.
Qed.

(** An environment whose font measures the empty string as the empty box. *)
Lemma empty_caption_still_drawn_witness :
  exists out w' x x1 x2,
    add_text_overlay
      (Environment Sample.pil_conversions (convert_pixels Sample.healthy)
         (paint_rectangle Sample.healthy) (paint_text Sample.healthy)
         (fun xy text f =>
            Returned (if truthy text then Sample.fixed_pitch xy text f else (0, 0, 0, 0)))
         (fun _ => None) (fun _ _ => None)
         (pipe_global Sample.healthy) (fun _ => None) (fun _ => None))
      0%nat "" Sample.studio = (Returned out, w') /\
    drawn w' = drawn Sample.studio ++
               [Rectangle out ((x1, 512 - 20), (x2, 512)) (Tuple 0 0 0 128);
                Text out (x, 512 - 10) "" DefaultFont (Named "white")] /\
    (x == inject_Z 512 / 2)%Q /\
    (x1 == inject_Z 512 / 2 - 10)%Q /\
    (x2 == inject_Z 512 / 2 + 10)%Q.
Proof.
  apply (empty_caption_still_drawn _ Sample.studio 0%nat
           Sample.generated DefaultFont 512 512); reflexivity.
Defined.
